(** * Issue synchronisation dashboard: the issues slice, the repository slice
      and the dashboard's add-repository handler, embedded in Rocq.

    Sources embedded here:
    - [client/src/lib/supabase.ts]                    (types)
    - [client/src/store/slices/issuesSlice.ts]        (fetchIssues, retryAutomation, reducers)
    - [client/src/store/slices/repositorySlice.ts]    (addRepository, reducers)
    - [client/src/pages/DashboardPage.tsx]            (validateAndAddRepository)
    - [client/src/pages/IssuesPage.tsx]               (effect, handlers, search)
    - [client/src/components/Navbar.tsx]              (handleRepositoryChange)
    - [client/src/components/AutomationStatusBadge.tsx]
    - [client/src/lib/api.ts] and the in-memory repository service

    Asynchronous code is written in a small inductive program monad whose only
    effects are outbound requests and observable events; running a program
    against a network gives its result and the ordered trace of what it did. *)

From Stdlib Require Import QArith Ascii String.
From stdpp Require Import gmap strings list pretty.

Local Open Scope Z_scope.

(* ===================================================================== *)
(** ** JavaScript values, truthiness and strings                          *)
(* ===================================================================== *)

Module Js.

(** [ToBoolean]: what [if (x)], [!x], [x && y] and [x || y] test. *)
Class Truthy (A : Type) := truthy : A -> bool.
#[global] Hint Mode Truthy ! : typeclass_instances.

(** A string is falsy exactly when it is empty. *)
#[global] Instance truthy_string : Truthy string :=
  fun s => negb (String.eqb s "").

(** [undefined] is falsy; a present value has its own truthiness. *)
#[global] Instance truthy_option {A} `{Truthy A} : Truthy (option A) :=
  fun o => match o with Some a => truthy a | None => false end.

(** [o || d] where the left operand may be [undefined]. *)
Definition or_default {A} `{Truthy A} (o : option A) (d : A) : A :=
  match o with
  | Some a => if truthy a then a else d
  | None => d
  end.

(** A property that is absent, explicitly [null], or holds a value. *)
Inductive nullable (A : Type) : Type :=
| absent
| null
| present (a : A).
Arguments absent {A}.
Arguments null {A}.
Arguments present {A} a.

#[global] Instance truthy_nullable {A} `{Truthy A} : Truthy (nullable A) :=
  fun o => match o with present a => truthy a | _ => false end.

(** [o?.f]: [undefined] when [o] is, the property otherwise. *)
Definition optional_chain {A B} (o : option A) (f : A -> option B) : option B :=
  match o with
  | Some a => f a
  | None => None
  end.

(** [o || null] where [o] is the result of a property lookup. *)
Definition or_null {A} `{Truthy A} (o : option A) : nullable A :=
  match o with
  | Some a => if truthy a then present a else null
  | None => null
  end.

#[local] Unset Elimination Schemes.

(** Parsed JSON of unknown shape. *)
Inductive JsValue : Type :=
| JsNull
| JsBool (b : bool)
| JsNumber (q : Q)
| JsString (s : string)
| JsArray (items : list JsValue)
| JsObject (fields : list (string * JsValue)).

#[local] Set Elimination Schemes.

#[global] Instance truthy_JsValue : Truthy JsValue :=
  fun v =>
    match v with
    | JsNull => false
    | JsBool b => b
    | JsNumber q => negb (Qnum q =? 0)
    | JsString s => truthy s
    | JsArray _ => true
    | JsObject _ => true
    end.

(** [Number.prototype.toString] and template-literal interpolation of an
    integer: decimal digits, a leading minus sign for negatives. *)
Definition toString (n : Z) : string := pretty n.

(** [String.prototype.includes]. *)
Fixpoint includes (hay needle : string) : bool :=
  String.prefix needle hay
  || match hay with
     | EmptyString => false
     | String _ rest => includes rest needle
     end.

(** Thrown values. [Plain] is a plain object with an optional [message]
    property (what a serialised error is); the others are [Error]
    instances. *)
Inductive JsError : Type :=
| Error (message : string)
| TypeError (message : string)
| SyntaxError (message : string)
| AxiosError (message : string)
| Plain (message : option string).

Definition instanceofError (e : JsError) : bool :=
  match e with
  | Plain _ => false
  | _ => true
  end.

Definition message (e : JsError) : option string :=
  match e with
  | Error m | TypeError m | SyntaxError m | AxiosError m => Some m
  | Plain m => m
  end.

End Js.
Export Js.

(* ===================================================================== *)
(** ** URLSearchParams                                                    *)
(* ===================================================================== *)

Module URLSearchParams.

(** An ordered list of name/value pairs. *)
Definition t : Type := list (string * string).

Definition new : t := [].

Definition append (name value : string) (ps : t) : t := ps ++ [(name, value)].

Definition getAll (name : string) (ps : t) : list string :=
  map snd (filter (fun p => fst p = name) ps).

Definition has (name : string) (ps : t) : bool :=
  bool_decide (getAll name ps <> []).

(** The application/x-www-form-urlencoded byte serialiser: ASCII letters,
    digits and [*-._] stay, a space becomes [+], any other byte becomes
    [%XX] in upper-case hexadecimal.  Strings are taken as UTF-8 bytes. *)
Definition unreserved (c : ascii) : bool :=
  let n := N_of_ascii c in
  ((48 <=? n) && (n <=? 57) || (65 <=? n) && (n <=? 90)
   || (97 <=? n) && (n <=? 122)
   || (n =? 42) || (n =? 45) || (n =? 46) || (n =? 95))%N.

Definition hex_digit (n : N) : ascii :=
  ascii_of_N (if (n <? 10)%N then 48 + n else 55 + n)%N.

Definition serialize_byte (c : ascii) : string :=
  if unreserved c then String c EmptyString
  else if (N_of_ascii c =? 32)%N then "+"
  else String "%" (String (hex_digit (N_of_ascii c / 16)%N)
                     (String (hex_digit (N_of_ascii c mod 16)%N) EmptyString)).

Fixpoint serialize (s : string) : string :=
  match s with
  | EmptyString => EmptyString
  | String c rest => serialize_byte c +:+ serialize rest
  end.

Definition toString (ps : t) : string :=
  String.concat "&" (map (fun p => serialize (fst p) +:+ "=" +:+ serialize (snd p)) ps).

End URLSearchParams.

(* ===================================================================== *)
(** ** Data model ([lib/supabase.ts])                                     *)
(* ===================================================================== *)

Module AutomationStatus.

Inductive Status : Type := pending | running | completed | failed.

Record t : Type := mk {
  status : option Status;          (* null allowed *)
  started_at : option string;
  completed_at : option string;
  error_message : option string;
  task_id : option string
}.

(** The object literal [{ status: "pending" }]. *)
Definition just_pending : t :=
  {| status := Some pending; started_at := None; completed_at := None;
     error_message := None; task_id := None |}.

(** An object is truthy whatever it holds. *)
#[global] Instance truthy_t : Truthy t := fun _ => true.

End AutomationStatus.

Module GitHubIssue.

Inductive State : Type := open | closed.

Record Account : Type := { login : string; avatar_url : string }.
Record Label : Type := { name : string; color : string }.

(** [GitHubIssue & { pull_request?: unknown }]: the issue type together with
    the marker property the remote source puts on pull requests. *)
Record t : Type := mk {
  id : Z;
  number : Z;
  title : string;
  body : option string;            (* null allowed *)
  state : State;
  created_at : string;
  updated_at : string;
  html_url : string;
  user : Account;
  labels : list Label;
  assignees : list Account;
  automation_status : nullable AutomationStatus.t;
  pull_request : option JsValue
}.

(** [{ ...issue, automation_status: s }] *)
Definition with_automation_status (s : nullable AutomationStatus.t) (issue : t) : t :=
  {| id := id issue; number := number issue; title := title issue;
     body := body issue; state := state issue;
     created_at := created_at issue; updated_at := updated_at issue;
     html_url := html_url issue; user := user issue; labels := labels issue;
     assignees := assignees issue;
     automation_status := s;
     pull_request := pull_request issue |}.

End GitHubIssue.

Module Repository.

Record t : Type := mk {
  id : string;
  user_id : string;
  name : string;
  full_name : string;
  description : option string;     (* null allowed *)
  url : string;
  created_at : string;
  updated_at : string;
  github_access : option JsValue
}.

End Repository.

Module Filters.

Inductive StateFilter : Type := all | open | closed.
Inductive SortKey : Type := created | updated | comments.
Inductive Direction : Type := asc | desc.

#[global] Instance StateFilter_eq_dec : EqDecision StateFilter.
Proof. solve_decision. Defined.

Definition StateFilter_string (s : StateFilter) : string :=
  match s with all => "all" | open => "open" | closed => "closed" end.
Definition SortKey_string (s : SortKey) : string :=
  match s with created => "created" | updated => "updated" | comments => "comments" end.
Definition Direction_string (d : Direction) : string :=
  match d with asc => "asc" | desc => "desc" end.

(** The enumerations are string literal types: their truthiness is that of
    the string. *)
#[global] Instance truthy_StateFilter : Truthy StateFilter :=
  fun s => truthy (StateFilter_string s).
#[global] Instance truthy_SortKey : Truthy SortKey :=
  fun s => truthy (SortKey_string s).
#[global] Instance truthy_Direction : Truthy Direction :=
  fun d => truthy (Direction_string d).

(** [IssuesState["filters"]] *)
Record t : Type := mk {
  state : StateFilter;
  assignee : string;
  label : string;
  sort : SortKey;
  direction : Direction
}.

(** [Partial<IssuesState["filters"]>]: every property may be missing. *)
Record partial : Type := mk_partial {
  state_opt : option StateFilter;
  assignee_opt : option string;
  label_opt : option string;
  sort_opt : option SortKey;
  direction_opt : option Direction
}.

(** A fully populated criteria object passed where a partial one is expected. *)
Definition full (f : t) : partial :=
  {| state_opt := Some (state f); assignee_opt := Some (assignee f);
     label_opt := Some (label f); sort_opt := Some (sort f);
     direction_opt := Some (direction f) |}.

(** [{ ...base, ...p }]: properties of [p] overwrite, the others stay. *)
Definition spread (base : t) (p : partial) : t :=
  {| state := default (state base) (state_opt p);
     assignee := default (assignee base) (assignee_opt p);
     label := default (label base) (label_opt p);
     sort := default (sort base) (sort_opt p);
     direction := default (direction base) (direction_opt p) |}.

End Filters.

(** Actions of the two slices.  The [Pending]/[Fulfilled]/[Rejected] triples
    are the lifecycle actions of the asynchronous thunks; a rejected action
    carries the serialised error. *)
Inductive IssuesAction : Type :=
| setFilters (payload : Filters.partial)
| clearError
| clearIssues
| updateIssueAutomationStatus (issueNumber : Z) (status : AutomationStatus.t)
| fetchIssues_pending
| fetchIssues_fulfilled (payload : list GitHubIssue.t)
| fetchIssues_rejected (error : JsError)
| retryAutomation_pending
| retryAutomation_fulfilled (issueNumber : Z) (status : string)
| retryAutomation_rejected (error : JsError).

Inductive RepositoryAction : Type :=
| setSelectedRepository (payload : option Repository.t)
| repositories_clearError
| fetchRepositories_pending
| fetchRepositories_fulfilled (payload : list Repository.t)
| fetchRepositories_rejected (error : JsError)
| addRepository_pending
| addRepository_fulfilled (payload : Repository.t)
| addRepository_rejected (error : JsError)
| deleteRepository_pending
| deleteRepository_fulfilled (payload : string)
| deleteRepository_rejected (error : JsError).

Inductive Action : Type :=
| IssuesA (a : IssuesAction)
| RepositoriesA (a : RepositoryAction).

(* ===================================================================== *)
(** ** Requests, responses and the program monad                         *)
(* ===================================================================== *)

Module Http.

Inductive Method : Type := GET | POST | DELETE.

(** The JSON body sent along with a create-repository request. *)
Record RepoData : Type := {
  rd_name : string;
  rd_full_name : string;
  rd_description : option string;
  rd_url : string
}.

Record Request : Type := {
  method : Method;
  url : string;
  headers : list (string * string);
  data : option RepoData
}.

(** What a response body parses to.  The bodies are those of the endpoints'
    contracts: an array of issue-shaped objects; an object whose
    [automation_statuses] is a dictionary of statuses ([Some]) or is missing
    or falsy ([None]); an object with [success] and a repository or an
    optional message; the JSON value [null]; [OtherBody], a JSON value other
    than [null] that has none of the properties the code reads; and a body
    that is not JSON.  An [automation_statuses] holding something else than
    statuses (a string, an array of other values) has no constructor. *)
Inductive Body : Type :=
| IssuesBody (items : list GitHubIssue.t)
| AutomationBody (automation_statuses : option (gmap string AutomationStatus.t))
| RepositoryCreated (repository : Repository.t)     (* success: true *)
| RepositoryRefused (message : option string)       (* success: false *)
| NullBody
| OtherBody
| InvalidBody.

Record Response : Type := {
  status : Z;
  statusText : string;
  body : Body
}.

(** [response.ok] *)
Definition ok (r : Response) : bool := (200 <=? status r) && (status r <=? 299).

(** A request either gets a response or fails in transport. *)
Inductive Outcome : Type :=
| Responded (r : Response)
| NetworkFailure.

Definition Network : Type := Request -> Outcome.

End Http.
Export Http.

(** Everything a handler does that an observer can see. *)
Inductive Event : Type :=
| Sent (req : Request)
| Dispatched (a : Action)
| ConsoleWarn (label : string) (e : option JsError)
| ConsoleError (label : string) (e : option JsError)
| ToastError (msg : string)
| ToastSuccess (msg : string)
| SetIsValidating (b : bool)
| SetSelectedRepoFromBrowser_null
| SetIsAddDialogOpen (b : bool).

(** Programs: return, throw, await a request, or emit an event. *)
Inductive Prog (A : Type) : Type :=
| Ret (a : A)
| Throw (e : JsError)
| Await (req : Request) (k : Outcome -> Prog A)
| Emit (ev : Event) (k : Prog A).
Arguments Ret {A} a.
Arguments Throw {A} e.
Arguments Await {A} req k.
Arguments Emit {A} ev k.

Fixpoint bind {A B} (p : Prog A) (f : A -> Prog B) : Prog B :=
  match p with
  | Ret a => f a
  | Throw e => Throw e
  | Await req k => Await req (fun o => bind (k o) f)
  | Emit ev k => Emit ev (bind k f)
  end.

(** [try { p } catch (e) { h e }] *)
Fixpoint try_catch {A} (p : Prog A) (h : JsError -> Prog A) : Prog A :=
  match p with
  | Ret a => Ret a
  | Throw e => h e
  | Await req k => Await req (fun o => try_catch (k o) h)
  | Emit ev k => Emit ev (try_catch k h)
  end.

(** [try { p } finally { f }] where [f] neither returns nor throws. *)
Fixpoint finally {A} (p : Prog A) (f : Prog unit) : Prog A :=
  match p with
  | Ret a => bind f (fun _ => Ret a)
  | Throw e => bind f (fun _ => Throw e)
  | Await req k => Await req (fun o => finally (k o) f)
  | Emit ev k => Emit ev (finally k f)
  end.

Declare Scope prog_scope.
Delimit Scope prog_scope with prog.
Notation "x <- p ;; q" := (bind p (fun x => q))
  (at level 100, p at next level, right associativity) : prog_scope.
Notation "p ;;; q" := (bind p (fun _ => q))
  (at level 100, right associativity) : prog_scope.

Definition emit (ev : Event) : Prog unit := Emit ev (Ret tt).

(** How a program ended. *)
Inductive Result (A : Type) : Type :=
| Returned (a : A)
| Thrown (e : JsError).
Arguments Returned {A} a.
Arguments Thrown {A} e.

(** Run a program against a network: its result and its trace, oldest first. *)
Fixpoint run {A} (net : Network) (p : Prog A) : Result A * list Event :=
  match p with
  | Ret a => (Returned a, [])
  | Throw e => (Thrown e, [])
  | Await req k => let r := run net (k (net req)) in (r.1, Sent req :: r.2)
  | Emit ev k => let r := run net k in (r.1, ev :: r.2)
  end.

(** The requests in a trace. *)
Definition requests (tr : list Event) : list Request :=
  omap (fun ev => match ev with Sent r => Some r | _ => None end) tr.

(** [fetch(url, init)]: rejects with a [TypeError] when the transport fails,
    resolves with the response otherwise (whatever its status).  The text of
    the [TypeError] is the platform's; the one written here is Chromium's. *)
Definition fetch (req : Request) : Prog Response :=
  Await req (fun o =>
    match o with
    | Responded r => Ret r
    | NetworkFailure => Throw (TypeError "Failed to fetch")
    end).

(** [response.json()]: rejects when the body is not JSON. *)
Definition json (r : Response) : Prog Body :=
  match body r with
  | InvalidBody => Throw (SyntaxError "Unexpected token")
  | b => Ret b
  end.

(** [import.meta.env] *)
Record Env : Type := {
  VITE_GITHUB_TOKEN : option string;
  VITE_API_BASE_URL : option string
}.

(** What the toolkit's error serialiser keeps of a thrown value: a plain
    object with the message. *)
Definition serializeError (e : JsError) : JsError := Plain (message e).

(** [createAsyncThunk]: dispatch [pending], run the payload creator, then
    dispatch [fulfilled] with what it returned or [rejected] with the
    serialised error of what it threw.  The dispatched thunk never throws. *)
Definition createAsyncThunk {A} (pending : Action) (fulfilled : A -> Action)
    (rejected : JsError -> Action) (payloadCreator : Prog A) : Prog (Result A) :=
  (emit (Dispatched pending) ;;;
   try_catch
     (a <- payloadCreator ;;
      emit (Dispatched (fulfilled a)) ;;;
      Ret (Returned a))
     (fun e =>
      emit (Dispatched (rejected (serializeError e))) ;;;
      Ret (Thrown (serializeError e))))%prog.

(** [.unwrap()] on a dispatched thunk. *)
Definition unwrap {A} (r : Result A) : Prog A :=
  match r with
  | Returned a => Ret a
  | Thrown e => Throw e
  end.

(* ===================================================================== *)
(** ** The issues slice ([store/slices/issuesSlice.ts])                   *)
(* ===================================================================== *)

Module IssuesSlice.

Import GitHubIssue.

Record IssuesState : Type := mk {
  issues : list GitHubIssue.t;
  loading : bool;
  error : option string;           (* null when there is none *)
  filters : Filters.t
}.

Definition initialState : IssuesState :=
  {| issues := []; loading := false; error := None;
     filters := {| Filters.state := Filters.all; Filters.assignee := "";
                   Filters.label := ""; Filters.sort := Filters.created;
                   Filters.direction := Filters.desc |} |}.

(** An object (here: the status dictionary) is truthy even when empty. *)
#[local] Instance truthy_dict {V} : Truthy (gmap string V) := fun _ => true.

(** Lines 42-58: the query parameters. *)
Definition query (filters : option Filters.partial) : URLSearchParams.t :=
  let params := URLSearchParams.new in
  let params :=
    match optional_chain filters Filters.state_opt with
    | Some s =>
        if truthy s && negb (bool_decide (s = Filters.all))
        then URLSearchParams.append "state" (Filters.StateFilter_string s) params
        else params
    | None => params
    end in
  let params :=
    match optional_chain filters Filters.assignee_opt with
    | Some a => if truthy a then URLSearchParams.append "assignee" a params else params
    | None => params
    end in
  let params :=
    match optional_chain filters Filters.label_opt with
    | Some l => if truthy l then URLSearchParams.append "labels" l params else params
    | None => params
    end in
  let params :=
    URLSearchParams.append "sort"
      (Filters.SortKey_string (or_default (optional_chain filters Filters.sort_opt) Filters.created))
      params in
  let params :=
    URLSearchParams.append "direction"
      (Filters.Direction_string (or_default (optional_chain filters Filters.direction_opt) Filters.desc))
      params in
  URLSearchParams.append "per_page" "100" params.

(** Line 60. *)
Definition issues_url (owner repo : string) (filters : option Filters.partial) : string :=
  "https://api.github.com/repos/" +:+ owner +:+ "/" +:+ repo +:+ "/issues?"
  +:+ URLSearchParams.toString (query filters).

(** Lines 62-70. *)
Definition issues_request (env : Env) (owner repo : string)
    (filters : option Filters.partial) : Request :=
  {| method := GET;
     url := issues_url owner repo filters;
     headers :=
       ("Accept", "application/vnd.github.v3+json")
       :: match VITE_GITHUB_TOKEN env with
          | Some tok => if truthy tok then [("Authorization", "token " +:+ tok)] else []
          | None => []
          end;
     data := None |}.

(** Lines 80-82: keep the items whose [pull_request] is falsy. *)
Definition without_pull_requests (items : list GitHubIssue.t) : list GitHubIssue.t :=
  List.filter (fun item => negb (truthy (pull_request item))) items.

(** [data.filter(...)]: only an array has [filter]. *)
Definition filter_data (data : Body) : Prog (list GitHubIssue.t) :=
  match data with
  | IssuesBody items => Ret (without_pull_requests items)
  | _ => Throw (TypeError "data.filter is not a function")
  end.

(** Lines 86-88. *)
Definition automation_request (owner repo : string) : Request :=
  {| method := GET;
     url := "http://localhost:8000/automation-status/" +:+ owner +:+ "/" +:+ repo;
     headers := [];
     data := None |}.

(** Line 92: [automationData.automation_statuses || {}]. *)
Definition automation_statuses_of (automationData : Body)
    : Prog (gmap string AutomationStatus.t) :=
  match automationData with
  | AutomationBody m => Ret (or_default m empty)
  | NullBody => Throw (TypeError "Cannot read properties of null")
  | _ => Ret empty
  end.

(** Lines 96-98: one issue of the merge. *)
Definition merge_one (automationStatuses : gmap string AutomationStatus.t)
    (issue : GitHubIssue.t) : GitHubIssue.t :=
  with_automation_status
    (or_null (automationStatuses !! toString (number issue))) issue.

(** Lines 95-99: the merge step. *)
Definition merge (automationStatuses : gmap string AutomationStatus.t)
    (issues : list GitHubIssue.t) : list GitHubIssue.t :=
  map (merge_one automationStatuses) issues.

(** Lines 33-106: the payload creator.  The [try] block yields [Some] when it
    returns from the function and [None] when control falls out of it. *)
Definition fetchIssues_payload (env : Env) (owner repo : string)
    (filters : option Filters.partial) : Prog (list GitHubIssue.t) :=
  (response <- fetch (issues_request env owner repo filters) ;;
   if negb (ok response) then
     Throw (Error ("GitHub API error: " +:+ toString (status response) +:+ " "
                   +:+ statusText response))
   else
     data <- json response ;;
     issues <- filter_data data ;;
     early <-
       try_catch
         (automationResponse <- fetch (automation_request owner repo) ;;
          if ok automationResponse then
            automationData <- json automationResponse ;;
            automationStatuses <- automation_statuses_of automationData ;;
            Ret (Some (merge automationStatuses issues))
          else Ret None)
         (fun error =>
          emit (ConsoleWarn "Failed to fetch automation statuses:" (Some error)) ;;;
          Ret None) ;;
     match early with
     | Some merged => Ret merged
     | None => Ret issues
     end)%prog.

Definition fetchIssues (env : Env) (owner repo : string)
    (filters : option Filters.partial) : Prog (Result (list GitHubIssue.t)) :=
  createAsyncThunk (IssuesA fetchIssues_pending)
    (fun p => IssuesA (fetchIssues_fulfilled p))
    (fun e => IssuesA (fetchIssues_rejected e))
    (fetchIssues_payload env owner repo filters).

(** Lines 120-128. *)
Definition retry_request (owner repo : string) (issueNumber : Z) : Request :=
  {| method := POST;
     url := "http://localhost:8000/automation-status/" +:+ owner +:+ "/" +:+ repo
            +:+ "/" +:+ toString issueNumber +:+ "/retry";
     headers := [("Content-Type", "application/json")];
     data := None |}.

(** Lines 111-135. *)
Definition retryAutomation_payload (owner repo : string) (issueNumber : Z)
    : Prog (Z * string) :=
  (response <- fetch (retry_request owner repo issueNumber) ;;
   if negb (ok response) then
     Throw (Error ("Failed to retry automation: " +:+ toString (status response)))
   else Ret (issueNumber, "pending"))%prog.

Definition retryAutomation (owner repo : string) (issueNumber : Z)
    : Prog (Result (Z * string)) :=
  createAsyncThunk (IssuesA retryAutomation_pending)
    (fun p => IssuesA (retryAutomation_fulfilled p.1 p.2))
    (fun e => IssuesA (retryAutomation_rejected e))
    (retryAutomation_payload owner repo issueNumber).

(** [state.issues.find(i => i.number === n)] followed by an assignment to the
    found draft's [automation_status]: the first issue with that number is
    replaced in place, and nothing happens when there is none. *)
Definition assign_automation_status (n : Z) (s : AutomationStatus.t)
    (issues : list GitHubIssue.t) : list GitHubIssue.t :=
  match list_find (fun issue => number issue = n) issues with
  | Some (i, issue) => <[i := with_automation_status (present s) issue]> issues
  | None => issues
  end.

(** Lines 141-189: reducers and extra reducers.  Actions without a case
    leave the state as it is. *)
Definition reducer (st : IssuesState) (a : IssuesAction) : IssuesState :=
  match a with
  | setFilters payload =>
      {| issues := issues st; loading := loading st; error := error st;
         filters := Filters.spread (filters st) payload |}
  | clearError =>
      {| issues := issues st; loading := loading st; error := None;
         filters := filters st |}
  | clearIssues =>
      {| issues := []; loading := loading st; error := error st;
         filters := filters st |}
  | updateIssueAutomationStatus issueNumber status =>
      {| issues := assign_automation_status issueNumber status (issues st);
         loading := loading st; error := error st; filters := filters st |}
  | fetchIssues_pending =>
      {| issues := issues st; loading := true; error := None;
         filters := filters st |}
  | fetchIssues_fulfilled payload =>
      {| issues := payload; loading := false; error := None;
         filters := filters st |}
  | fetchIssues_rejected err =>
      {| issues := issues st; loading := false;
         error := Some (or_default (message err) "Failed to fetch issues");
         filters := filters st |}
  | retryAutomation_fulfilled issueNumber _ =>
      {| issues := assign_automation_status issueNumber
                     AutomationStatus.just_pending (issues st);
         loading := loading st; error := error st; filters := filters st |}
  | retryAutomation_pending | retryAutomation_rejected _ => st
  end.

End IssuesSlice.

(* ===================================================================== *)
(** ** The repository slice ([store/slices/repositorySlice.ts])           *)
(* ===================================================================== *)

Module RepositorySlice.

Record RepositoryState : Type := mk {
  repositories : list Repository.t;
  selectedRepository : option Repository.t;
  loading : bool;
  error : option string
}.

Definition initialState : RepositoryState :=
  {| repositories := []; selectedRepository := None; loading := false;
     error := None |}.

(** [lib/api.ts]: the base address of the companion backend. *)
Definition API_BASE_URL (env : Env) : string :=
  or_default (VITE_API_BASE_URL env) "http://localhost:8000".

(** [api.post(path, data)] with the response interceptor of [lib/api.ts]:
    resolves with the parsed body on a 2xx status, rejects otherwise (after
    logging a 401 or a 500), and rejects when the transport fails. *)
Definition api_post (env : Env) (path : string) (d : RepoData) : Prog Body :=
  Await {| method := POST; url := API_BASE_URL env +:+ path;
           headers := [("Content-Type", "application/json")];
           data := Some d |}
    (fun o =>
       match o with
       | Responded r =>
           if ok r then Ret (body r)
           else
             let reject :=
               Throw (AxiosError ("Request failed with status code "
                                  +:+ toString (status r))) in
             if status r =? 401 then Emit (ConsoleWarn "Unauthorized access" None) reject
             else if status r =? 500 then Emit (ConsoleError "Server error:" None) reject
             else reject
       | NetworkFailure => Throw (AxiosError "Network Error")
       end).

(** Lines 30-52: the payload creator of [addRepository]. *)
Definition addRepository_payload (env : Env) (userId : string) (repoData : RepoData)
    : Prog Repository.t :=
  (response_data <- api_post env ("/repositories?user_id=" +:+ userId) repoData ;;
   match response_data with
   | RepositoryCreated repository => Ret repository
   | RepositoryRefused msg => Throw (Error (or_default msg "Failed to add repository"))
   | NullBody => Throw (TypeError "Cannot read properties of null")
   | _ => Throw (Error "Failed to add repository")
   end)%prog.

Definition addRepository (env : Env) (userId : string) (repoData : RepoData)
    : Prog (Result Repository.t) :=
  createAsyncThunk (RepositoriesA addRepository_pending)
    (fun p => RepositoriesA (addRepository_fulfilled p))
    (fun e => RepositoriesA (addRepository_rejected e))
    (addRepository_payload env userId repoData).

(** [api.delete(path)] with the same interceptor; a request without a body
    carries no content type. *)
Definition api_delete (env : Env) (path : string) : Prog Body :=
  Await {| method := DELETE; url := API_BASE_URL env +:+ path;
           headers := []; data := None |}
    (fun o =>
       match o with
       | Responded r =>
           if ok r then Ret (body r)
           else
             let reject :=
               Throw (AxiosError ("Request failed with status code "
                                  +:+ toString (status r))) in
             if status r =? 401 then Emit (ConsoleWarn "Unauthorized access" None) reject
             else if status r =? 500 then Emit (ConsoleError "Server error:" None) reject
             else reject
       | NetworkFailure => Throw (AxiosError "Network Error")
       end).

(** Lines 57-73: the payload creator of [deleteRepository].  A body with
    [success: true] is a [RepositoryCreated] one, whatever else it holds. *)
Definition deleteRepository_payload (env : Env) (repositoryId userId : string)
    : Prog string :=
  (response_data <- api_delete env ("/repositories/" +:+ repositoryId
                                    +:+ "?user_id=" +:+ userId) ;;
   match response_data with
   | RepositoryCreated _ => Ret repositoryId
   | RepositoryRefused msg => Throw (Error (or_default msg "Failed to delete repository"))
   | NullBody => Throw (TypeError "Cannot read properties of null")
   | _ => Throw (Error "Failed to delete repository")
   end)%prog.

Definition deleteRepository (env : Env) (repositoryId userId : string)
    : Prog (Result string) :=
  createAsyncThunk (RepositoriesA deleteRepository_pending)
    (fun p => RepositoriesA (deleteRepository_fulfilled p))
    (fun e => RepositoriesA (deleteRepository_rejected e))
    (deleteRepository_payload env repositoryId userId).

(** [state.selectedRepository?.id === payload] *)
Definition selected_is (sel : option Repository.t) (rid : string) : bool :=
  match sel with
  | Some r => bool_decide (Repository.id r = rid)
  | None => false
  end.

(** Lines 79-139. *)
Definition reducer (st : RepositoryState) (a : RepositoryAction) : RepositoryState :=
  match a with
  | setSelectedRepository payload =>
      {| repositories := repositories st; selectedRepository := payload;
         loading := loading st; error := error st |}
  | repositories_clearError =>
      {| repositories := repositories st;
         selectedRepository := selectedRepository st;
         loading := loading st; error := None |}
  | fetchRepositories_pending | addRepository_pending | deleteRepository_pending =>
      {| repositories := repositories st;
         selectedRepository := selectedRepository st;
         loading := true; error := None |}
  | fetchRepositories_fulfilled payload =>
      {| repositories := payload; selectedRepository := selectedRepository st;
         loading := false; error := None |}
  | fetchRepositories_rejected err =>
      {| repositories := repositories st;
         selectedRepository := selectedRepository st; loading := false;
         error := Some (or_default (message err) "Failed to fetch repositories") |}
  | addRepository_fulfilled payload =>
      {| repositories := payload :: repositories st;
         selectedRepository := selectedRepository st;
         loading := false; error := None |}
  | addRepository_rejected err =>
      {| repositories := repositories st;
         selectedRepository := selectedRepository st; loading := false;
         error := Some (or_default (message err) "Failed to add repository") |}
  | deleteRepository_fulfilled payload =>
      {| repositories :=
           List.filter (fun repo => negb (bool_decide (Repository.id repo = payload)))
                       (repositories st);
         selectedRepository :=
           if selected_is (selectedRepository st) payload then None
           else selectedRepository st;
         loading := false; error := None |}
  | deleteRepository_rejected err =>
      {| repositories := repositories st;
         selectedRepository := selectedRepository st; loading := false;
         error := Some (or_default (message err) "Failed to delete repository") |}
  end.

End RepositorySlice.

(* ===================================================================== *)
(** ** The store                                                          *)
(* ===================================================================== *)

Record Store : Type := {
  issues_state : IssuesSlice.IssuesState;
  repositories_state : RepositorySlice.RepositoryState
}.

(** Each slice reducer sees the actions of its own slice. *)
Definition rootReducer (st : Store) (a : Action) : Store :=
  match a with
  | IssuesA a =>
      {| issues_state := IssuesSlice.reducer (issues_state st) a;
         repositories_state := repositories_state st |}
  | RepositoriesA a =>
      {| issues_state := issues_state st;
         repositories_state := RepositorySlice.reducer (repositories_state st) a |}
  end.

(** The actions dispatched in a trace, in order. *)
Definition dispatched (tr : list Event) : list Action :=
  omap (fun ev => match ev with Dispatched a => Some a | _ => None end) tr.

(** The store after the actions of a trace have been reduced. *)
Definition store_after (st : Store) (tr : list Event) : Store :=
  fold_left rootReducer (dispatched tr) st.

(* ===================================================================== *)
(** ** The dashboard's add handler ([pages/DashboardPage.tsx])            *)
(* ===================================================================== *)

Module DashboardPage.

(** The repository picked in the browser dialog. *)
Record BrowserRepo : Type := {
  id : Z;
  name : string;
  full_name : string;
  description : option string;     (* null allowed *)
  html_url : string
}.

(** The signed-in account, of which the handler reads [id]. *)
Module User.
Record t : Type := { id : string }.
End User.

(** What the handler closes over: the component's state and what it
    selected from the store at the last render. *)
Record Props : Type := {
  user : option User.t;
  repositories : list Repository.t;
  selectedRepoFromBrowser : option BrowserRepo
}.

(** [description || undefined] *)
Definition description_or_undefined (d : option string) : option string :=
  match d with
  | Some s => if truthy s then Some s else None
  | None => None
  end.

(** Lines 89-138. *)
Definition validateAndAddRepository (env : Env) (c : Props) : Prog unit :=
  match selectedRepoFromBrowser c with
  | None => emit (ToastError "Please select a repository")
  | Some selected =>
      match user c with
      | None => emit (ToastError "User not authenticated")
      | Some u =>
          (emit (SetIsValidating true) ;;;
           finally
             (try_catch
                (match list_find (fun r => Repository.full_name r = full_name selected)
                                 (repositories c) with
                 | Some _ =>
                     emit (ToastError "This repository is already added") ;;;
                     emit (SetIsValidating false)
                 | None =>
                     r <- RepositorySlice.addRepository env (User.id u)
                            {| rd_name := name selected;
                               rd_full_name := full_name selected;
                               rd_description :=
                                 description_or_undefined (description selected);
                               rd_url := html_url selected |} ;;
                     unwrap r ;;;
                     emit (ToastSuccess "Repository added successfully!") ;;;
                     emit SetSelectedRepoFromBrowser_null ;;;
                     emit (SetIsAddDialogOpen false)
                 end)
                (fun error =>
                   emit (ConsoleError "Error adding repository:" (Some error)) ;;;
                   emit (ToastError
                           (if instanceofError error
                            then default "" (message error)
                            else "Failed to add repository"))))
             (emit (SetIsValidating false)))%prog
      end
  end.

(** The double-quote character of the selection message. *)
Definition dquote : string := String (ascii_of_N 34) EmptyString.

(** Lines 140-162.  [confirmed] is the answer given to the confirmation
    prompt. *)
Definition handleDeleteRepository (env : Env) (c : Props) (confirmed : bool)
    (repositoryId repositoryName : string) : Prog unit :=
  if negb confirmed then Ret tt
  else
    match user c with
    | None => emit (ToastError "User not authenticated")
    | Some u =>
        (try_catch
           (r <- RepositorySlice.deleteRepository env repositoryId (User.id u) ;;
            unwrap r ;;;
            emit (ToastSuccess "Repository removed successfully!"))
           (fun error =>
              emit (ConsoleError "Error deleting repository:" (Some error)) ;;;
              emit (ToastError "Failed to remove repository")))%prog
    end.

(** Lines 164-167. *)
Definition handleSelectRepository (repository : Repository.t) : Prog unit :=
  (emit (Dispatched (RepositoriesA (setSelectedRepository (Some repository)))) ;;;
   emit (ToastSuccess ("Selected " +:+ dquote +:+ Repository.name repository
                       +:+ dquote +:+ " repository")))%prog.

End DashboardPage.

(* ===================================================================== *)
(** ** The navigation bar ([components/Navbar.tsx])                       *)
(* ===================================================================== *)

Module Navbar.

(** [handleRepositoryChange]: select the first repository with that id, or
    nothing when there is none ([repository || null]). *)
Definition handleRepositoryChange (repositories : list Repository.t)
    (repositoryId : string) : Prog unit :=
  emit (Dispatched (RepositoriesA (setSelectedRepository
          (match list_find (fun repo => Repository.id repo = repositoryId)
                           repositories with
           | Some (_, repository) => Some repository
           | None => None
           end)))).

End Navbar.

(* ===================================================================== *)
(** ** The status badge ([components/AutomationStatusBadge.tsx])          *)
(* ===================================================================== *)

Module AutomationStatusBadge.

(** The text of the badge. *)
Definition text (status : nullable AutomationStatus.t) : string :=
  match status with
  | present s =>
      match AutomationStatus.status s with
      | None => "No automation"
      | Some AutomationStatus.pending => "Pending"
      | Some AutomationStatus.running => "Running"
      | Some AutomationStatus.completed => "Completed"
      | Some AutomationStatus.failed => "Failed"
      end
  | _ => "No automation"
  end.

(** Whether the retry button is rendered; [onRetry] tells whether a handler
    was passed. *)
Definition retry_button (status : nullable AutomationStatus.t)
    (showRetryButton onRetry : bool) : bool :=
  match status with
  | present s =>
      match AutomationStatus.status s with
      | None => false
      | Some st =>
          showRetryButton
          && match st with AutomationStatus.failed => true | _ => false end
          && onRetry
      end
  | _ => false
  end.

End AutomationStatusBadge.

(* ===================================================================== *)
(** ** The issues page ([pages/IssuesPage.tsx])                           *)
(* ===================================================================== *)

Module IssuesPage.

(** [s.split(sep)] for a one-character separator: the segments between
    the separators, at least one. *)
Fixpoint split (sep : ascii) (s : string) : list string :=
  match s with
  | EmptyString => [EmptyString]
  | String c rest =>
      if Ascii.eqb c sep then EmptyString :: split sep rest
      else match split sep rest with
           | segment :: segments => String c segment :: segments
           | [] => [String c EmptyString]
           end
  end.

(** A value interpolated into a template literal. *)
Definition interpolate (o : option string) : string :=
  match o with
  | Some s => s
  | None => "undefined"
  end.

(** [const [owner, repo] = full_name.split("/")] *)
Definition owner_and_repo (full_name : string) : option string * option string :=
  let parts := split "/" full_name in (parts !! 0%nat, parts !! 1%nat).

(** A program whose result, returned or thrown, nobody looks at. *)
Definition unobserved {A} (p : Prog A) : Prog unit :=
  try_catch (bind p (fun _ => Ret tt)) (fun _ => Ret tt).

(** An asynchronous program started but not awaited, followed by the
    synchronous remainder of the handler (toasts and state updates, which do
    not throw): the program runs up to its first request, the remainder
    runs, and the program resumes when the response arrives. *)
Fixpoint start_then {A} (p : Prog A) (rest : Prog unit) : Prog unit :=
  match p with
  | Ret _ | Throw _ => rest
  | Emit ev k => Emit ev (start_then k rest)
  | Await req k => Await req (fun o => bind rest (fun _ => unobserved (k o)))
  end.

(** Lines 90-97: the effect run when the selected repository or the filters
    change. *)
Definition syncIssues (env : Env) (selectedRepository : option Repository.t)
    (filters : Filters.t) : Prog unit :=
  match selectedRepository with
  | Some r =>
      let parts := owner_and_repo (Repository.full_name r) in
      start_then
        (IssuesSlice.fetchIssues env (interpolate parts.1) (interpolate parts.2)
           (Some (Filters.full filters)))
        (Ret tt)
  | None => emit (Dispatched (IssuesA clearIssues))
  end.



Section Search.

(** [String.prototype.toLowerCase], the platform's. *)
Variable toLowerCase : string -> string.

(** Lines 107-112: the predicate of the client-side search. *)
Definition matches (searchQuery : string) (issue : GitHubIssue.t) : bool :=
  bool_decide (searchQuery = "")
  || includes (toLowerCase (GitHubIssue.title issue)) (toLowerCase searchQuery)
  || match GitHubIssue.body issue with
     | Some b => includes (toLowerCase b) (toLowerCase searchQuery)
     | None => false
     end.

Definition filteredIssues (searchQuery : string) (issues : list GitHubIssue.t)
    : list GitHubIssue.t :=
  List.filter (matches searchQuery) issues.

End Search.

End IssuesPage.

(* ===================================================================== *)
(** ** The in-memory repository service ([mockRepositoryService])         *)
(* ===================================================================== *)

Module MockRepositoryService.

(** The module's two variables. *)
Record State : Type := {
  mockRepositories : list Repository.t;
  nextId : Z
}.

Definition initial : State := {| mockRepositories := []; nextId := 1 |}.

(** Lines 8-10. *)
Definition fetchRepositories (st : State) (userId : string) : list Repository.t :=
  List.filter (fun repo => bool_decide (Repository.user_id repo = userId))
              (mockRepositories st).

(** [nextId++] leaves in the counter, a double holding an integer, the sum
    [n + 1]: exact below 2^53, while 2^53 + 1 rounds back to 2^53.  Counting
    up from 1 never takes the counter beyond 2^53. *)
Definition incremented (n : Z) : Z := if n <? 2 ^ 53 then n + 1 else n.

(** Lines 12-34.  [created] and [updated] are the two readings of the clock. *)
Definition addRepository (st : State) (created updated : string) (userId : string)
    (repoData : RepoData) : State * Repository.t :=
  let newRepo :=
    {| Repository.id := toString (nextId st);
       Repository.user_id := userId;
       Repository.name := rd_name repoData;
       Repository.full_name := rd_full_name repoData;
       Repository.description :=
         match rd_description repoData with
         | Some d => if truthy d then Some d else None
         | None => None
         end;
       Repository.url := rd_url repoData;
       Repository.created_at := created;
       Repository.updated_at := updated;
       Repository.github_access := None |} in
  ({| mockRepositories := mockRepositories st ++ [newRepo];
      nextId := incremented (nextId st) |}, newRepo).

(** Lines 36-43: [findIndex] then [splice(index, 1)]. *)
Definition deleteRepository (st : State) (repositoryId : string) : State :=
  match list_find (fun repo => Repository.id repo = repositoryId)
                  (mockRepositories st) with
  | Some (index, _) =>
      {| mockRepositories := delete index (mockRepositories st);
         nextId := nextId st |}
  | None => st
  end.

(** A call of the service. *)
Inductive Call : Type :=
| Add (created updated userId : string) (repoData : RepoData)
| Delete (repositoryId : string).

Definition call (st : State) (c : Call) : State :=
  match c with
  | Add created updated userId repoData =>
      (addRepository st created updated userId repoData).1
  | Delete repositoryId => deleteRepository st repositoryId
  end.

End MockRepositoryService.

(* ===================================================================== *)
(** ** Concrete data used in examples                                     *)
(* ===================================================================== *)

Module Sample.

Definition octocat : GitHubIssue.Account :=
  {| GitHubIssue.login := "octocat"; GitHubIssue.avatar_url := "" |}.

(** A plain issue with the given number and nothing attached. *)
Definition issue (n : Z) : GitHubIssue.t :=
  {| GitHubIssue.id := 1000 + n; GitHubIssue.number := n;
     GitHubIssue.title := "Something is broken"; GitHubIssue.body := None;
     GitHubIssue.state := GitHubIssue.open;
     GitHubIssue.created_at := "2024-01-01T00:00:00Z";
     GitHubIssue.updated_at := "2024-01-02T00:00:00Z";
     GitHubIssue.html_url := ""; GitHubIssue.user := octocat;
     GitHubIssue.labels := []; GitHubIssue.assignees := [];
     GitHubIssue.automation_status := absent;
     GitHubIssue.pull_request := None |}.

(** The same item carrying a [pull_request] property with value [v]. *)
Definition marked (n : Z) (v : JsValue) : GitHubIssue.t :=
  {| GitHubIssue.id := 1000 + n; GitHubIssue.number := n;
     GitHubIssue.title := "Something is broken"; GitHubIssue.body := None;
     GitHubIssue.state := GitHubIssue.open;
     GitHubIssue.created_at := "2024-01-01T00:00:00Z";
     GitHubIssue.updated_at := "2024-01-02T00:00:00Z";
     GitHubIssue.html_url := ""; GitHubIssue.user := octocat;
     GitHubIssue.labels := []; GitHubIssue.assignees := [];
     GitHubIssue.automation_status := absent;
     GitHubIssue.pull_request := Some v |}.

Definition running_status : AutomationStatus.t :=
  {| AutomationStatus.status := Some AutomationStatus.running;
     AutomationStatus.started_at := Some "2024-01-03T00:00:00Z";
     AutomationStatus.completed_at := None;
     AutomationStatus.error_message := None;
     AutomationStatus.task_id := Some "task-7" |}.

Definition statuses : gmap string AutomationStatus.t :=
  <["7" := running_status]> empty.

Definition env : Env :=
  {| VITE_GITHUB_TOKEN := None; VITE_API_BASE_URL := None |}.

Definition open_filters : Filters.t :=
  {| Filters.state := Filters.open; Filters.assignee := ""; Filters.label := "";
     Filters.sort := Filters.created; Filters.direction := Filters.desc |}.

Definition store (issues : list GitHubIssue.t) : Store :=
  {| issues_state :=
       {| IssuesSlice.issues := issues; IssuesSlice.loading := false;
          IssuesSlice.error := None;
          IssuesSlice.filters := IssuesSlice.filters IssuesSlice.initialState |};
     repositories_state := RepositorySlice.initialState |}.

(** The remote issue source answers 200 with [items]; the companion backend
    cannot be reached. *)
Definition backend_down (items : list GitHubIssue.t) : Network :=
  fun req =>
    if String.prefix "https://api.github.com/" (url req)
    then Responded {| status := 200; statusText := "OK"; body := IssuesBody items |}
    else NetworkFailure.

(** Every request is answered with the given status line and an empty
    JSON object. *)
Definition answers (code : Z) (reason : string) : Network :=
  fun _ => Responded {| status := code; statusText := reason; body := OtherBody |}.

Definition hello_world : Repository.t :=
  {| Repository.id := "r-1"; Repository.user_id := "u-1";
     Repository.name := "hello-world";
     Repository.full_name := "octocat/hello-world";
     Repository.description := None;
     Repository.url := "https://github.com/octocat/hello-world";
     Repository.created_at := "2024-01-01T00:00:00Z";
     Repository.updated_at := "2024-01-01T00:00:00Z";
     Repository.github_access := None |}.

Definition picked_hello_world : DashboardPage.BrowserRepo :=
  {| DashboardPage.id := 1296269; DashboardPage.name := "hello-world";
     DashboardPage.full_name := "octocat/hello-world";
     DashboardPage.description := None;
     DashboardPage.html_url := "https://github.com/octocat/hello-world" |}.

(** The dashboard with [hello_world] tracked and picked again. *)
Definition dashboard (user : option DashboardPage.User.t) : DashboardPage.Props :=
  {| DashboardPage.user := user;
     DashboardPage.repositories := [hello_world];
     DashboardPage.selectedRepoFromBrowser := Some picked_hello_world |}.

(** The remote issue source answers 200 with [items]; the companion backend
    answers 200 with [status_body]. *)
Definition both_up (items : list GitHubIssue.t) (status_body : Body) : Network :=
  fun req =>
    if String.prefix "https://api.github.com/" (url req)
    then Responded {| status := 200; statusText := "OK"; body := IssuesBody items |}
    else Responded {| status := 200; statusText := "OK"; body := status_body |}.

Definition picked_spoon_knife : DashboardPage.BrowserRepo :=
  {| DashboardPage.id := 1300192; DashboardPage.name := "Spoon-Knife";
     DashboardPage.full_name := "octocat/Spoon-Knife";
     DashboardPage.description := Some "";
     DashboardPage.html_url := "https://github.com/octocat/Spoon-Knife" |}.

Definition spoon_knife : Repository.t :=
  {| Repository.id := "r-2"; Repository.user_id := "u-1";
     Repository.name := "Spoon-Knife";
     Repository.full_name := "octocat/Spoon-Knife";
     Repository.description := None;
     Repository.url := "https://github.com/octocat/Spoon-Knife";
     Repository.created_at := "2024-02-01T00:00:00Z";
     Repository.updated_at := "2024-02-01T00:00:00Z";
     Repository.github_access := None |}.

Definition signed_in : DashboardPage.User.t := {| DashboardPage.User.id := "u-1" |}.

(** The dashboard with [hello_world] tracked and [Spoon-Knife] picked. *)
Definition dashboard_fresh_pick : DashboardPage.Props :=
  {| DashboardPage.user := Some signed_in;
     DashboardPage.repositories := [hello_world];
     DashboardPage.selectedRepoFromBrowser := Some picked_spoon_knife |}.

(** Every request is answered with the given status line and body. *)
Definition answers_with (code : Z) (reason : string) (b : Body) : Network :=
  fun _ => Responded {| status := code; statusText := reason; body := b |}.

(** A store tracking the given repositories, with the first one selected. *)
Definition store_tracking (repos : list Repository.t) : Store :=
  {| issues_state := IssuesSlice.initialState;
     repositories_state :=
       {| RepositorySlice.repositories := repos;
          RepositorySlice.selectedRepository := head repos;
          RepositorySlice.loading := false;
          RepositorySlice.error := None |} |}.

(** Lower-casing of the ASCII letters, the other bytes kept. *)
Definition lower_ascii (c : ascii) : ascii :=
  let n := N_of_ascii c in
  if ((65 <=? n) && (n <=? 90))%N then ascii_of_N (n + 32) else c.

Fixpoint lower (s : string) : string :=
  match s with
  | EmptyString => EmptyString
  | String c rest => String (lower_ascii c) (lower rest)
  end.

Definition spoon_knife_data : RepoData :=
  {| rd_name := "Spoon-Knife"; rd_full_name := "octocat/Spoon-Knife";
     rd_description := Some ""; rd_url := "https://github.com/octocat/Spoon-Knife" |}.

End Sample.

(* ===================================================================== *)
(** ** Vocabulary of the statements                                       *)
(* ===================================================================== *)

(** Two issues that agree on everything but [automation_status]. *)
Definition same_but_automation_status (a b : GitHubIssue.t) : Prop :=
  GitHubIssue.id b = GitHubIssue.id a
  /\ GitHubIssue.number b = GitHubIssue.number a
  /\ GitHubIssue.title b = GitHubIssue.title a
  /\ GitHubIssue.body b = GitHubIssue.body a
  /\ GitHubIssue.state b = GitHubIssue.state a
  /\ GitHubIssue.created_at b = GitHubIssue.created_at a
  /\ GitHubIssue.updated_at b = GitHubIssue.updated_at a
  /\ GitHubIssue.html_url b = GitHubIssue.html_url a
  /\ GitHubIssue.user b = GitHubIssue.user a
  /\ GitHubIssue.labels b = GitHubIssue.labels a
  /\ GitHubIssue.assignees b = GitHubIssue.assignees a
  /\ GitHubIssue.pull_request b = GitHubIssue.pull_request a.

(** What a write to the [automation_status] of issue number [n] may change
    between two states of the slice: nothing but that field of at most one
    issue, which has number [n]; nothing at all when no issue has that
    number. *)
Definition touches_only_status_of (n : Z) (st st' : IssuesSlice.IssuesState) : Prop :=
  IssuesSlice.filters st' = IssuesSlice.filters st
  /\ IssuesSlice.loading st' = IssuesSlice.loading st
  /\ IssuesSlice.error st' = IssuesSlice.error st
  /\ length (IssuesSlice.issues st') = length (IssuesSlice.issues st)
  /\ (forall i issue, IssuesSlice.issues st !! i = Some issue ->
        GitHubIssue.number issue <> n ->
        IssuesSlice.issues st' !! i = Some issue)
  /\ (forall i issue, IssuesSlice.issues st !! i = Some issue ->
        exists issue',
          IssuesSlice.issues st' !! i = Some issue'
          /\ same_but_automation_status issue issue')
  /\ (forall i j,
        IssuesSlice.issues st' !! i <> IssuesSlice.issues st !! i ->
        IssuesSlice.issues st' !! j <> IssuesSlice.issues st !! j ->
        i = j)
  /\ (Forall (fun issue => GitHubIssue.number issue <> n) (IssuesSlice.issues st) ->
        st' = st).

(** An item carries the marker when it has a [pull_request] property at
    all, whatever its value. *)
Definition carries_marker (item : GitHubIssue.t) : bool :=
  match GitHubIssue.pull_request item with
  | Some _ => true
  | None => false
  end.

(** The status fetch fails when the transport fails or the response is not
    a 2xx one. *)
Definition status_fetch_failed (o : Outcome) : Prop :=
  match o with
  | NetworkFailure => True
  | Responded r => ok r = false
  end.

(** What is logged when the status fetch fails. *)
Definition status_failure_log (o : Outcome) : list Event :=
  match o with
  | NetworkFailure =>
      [ConsoleWarn "Failed to fetch automation statuses:"
         (Some (TypeError "Failed to fetch"))]
  | Responded _ => []
  end.

(** The payloads of the [setFilters] actions of a sequence, in order. *)
Definition setFilters_payloads (actions : list IssuesAction) : list Filters.partial :=
  omap (fun a => match a with setFilters p => Some p | _ => None end) actions.

(** The actions that put a new list in place of the issues. *)
Definition replaces_issues (a : IssuesAction) : bool :=
  match a with
  | fetchIssues_fulfilled _ | clearIssues => true
  | _ => false
  end.

(** The lifecycle actions of [fetchIssues]. *)
Definition fetchIssues_lifecycle (a : IssuesAction) : bool :=
  match a with
  | fetchIssues_pending | fetchIssues_fulfilled _ | fetchIssues_rejected _ => true
  | _ => false
  end.

(** The data the add handler sends for a picked repository. *)
Definition add_data (selected : DashboardPage.BrowserRepo) : RepoData :=
  {| rd_name := DashboardPage.name selected;
     rd_full_name := DashboardPage.full_name selected;
     rd_description :=
       DashboardPage.description_or_undefined (DashboardPage.description selected);
     rd_url := DashboardPage.html_url selected |}.

(** The request [addRepository] makes for a signed-in user and a picked
    repository. *)
Definition add_request (env : Env) (u : DashboardPage.User.t)
    (selected : DashboardPage.BrowserRepo) : Request :=
  {| method := POST;
     url := RepositorySlice.API_BASE_URL env +:+ "/repositories?user_id="
            +:+ DashboardPage.User.id u;
     headers := [("Content-Type", "application/json")];
     data := Some (add_data selected) |}.

(** The request [deleteRepository] makes. *)
Definition delete_request (env : Env) (repositoryId userId : string) : Request :=
  {| method := DELETE;
     url := RepositorySlice.API_BASE_URL env +:+ "/repositories/" +:+ repositoryId
            +:+ "?user_id=" +:+ userId;
     headers := []; data := None |}.

(** The backend did not report success: no response, a non-2xx response, or
    a body that does not say [success: true]. *)
Definition not_successful (o : Outcome) : Prop :=
  match o with
  | NetworkFailure => True
  | Responded r => ok r = false \/ forall repo, body r <> RepositoryCreated repo
  end.

(** Console output. *)
Definition is_console (ev : Event) : bool :=
  match ev with
  | ConsoleWarn _ _ | ConsoleError _ _ => true
  | _ => false
  end.

(** A string without a slash. *)
Definition no_slash (s : string) : Prop :=
  ~ In "/"%char (list_ascii_of_string s).

(** The number of [Add] calls in a sequence. *)
Definition adds (calls : list MockRepositoryService.Call) : nat :=
  length (List.filter (fun c => match c with
                                | MockRepositoryService.Add _ _ _ _ => true
                                | _ => false
                                end) calls).

(** Every stored id is the decimal text of a number handed out so far, and no
    two stored repositories share an id. *)
Definition ids_unique (st : MockRepositoryService.State) : Prop :=
  NoDup (map Repository.id (MockRepositoryService.mockRepositories st))
  /\ Forall (fun repo => exists k, 1 <= k < MockRepositoryService.nextId st
                                   /\ Repository.id repo = toString k)
       (MockRepositoryService.mockRepositories st)
  /\ 1 <= MockRepositoryService.nextId st.

(* ===================================================================== *)
(** ** Properties of the automation-status merge                         *)
(* ===================================================================== *)

Lemma with_automation_status_frame s issue :
  same_but_automation_status issue (GitHubIssue.with_automation_status s issue).
Proof. repeat split. Qed.

Lemma with_automation_status_same issue :
  GitHubIssue.with_automation_status (GitHubIssue.automation_status issue) issue = issue.
Proof. by destruct issue. Qed.

Lemma merge_one_status m issue :
  GitHubIssue.automation_status (IssuesSlice.merge_one m issue)
  = match m !! toString (GitHubIssue.number issue) with
    | Some a => present a
    | None => null
    end.
Proof.
  unfold IssuesSlice.merge_one. simpl.
  by destruct (m !! toString (GitHubIssue.number issue)).
Qed.

Lemma merge_lookup m issues i :
  IssuesSlice.merge m issues !! i = IssuesSlice.merge_one m <$> issues !! i.
Proof. unfold IssuesSlice.merge. apply list_lookup_fmap. Qed.

(** C1. The merge step keeps the list's length and order; at every position
    the issue whose number, as a string, is a key of the mapping gets the
    mapped value as [automation_status], any other issue gets [null], and all
    other fields are the ones the issue had. *)
Theorem merge_attaches_status_by_number
    (m : gmap string AutomationStatus.t) (issues : list GitHubIssue.t) :
  length (IssuesSlice.merge m issues) = length issues
  /\ forall i issue, issues !! i = Some issue ->
       exists merged,
         IssuesSlice.merge m issues !! i = Some merged
         /\ (forall a, m !! toString (GitHubIssue.number issue) = Some a ->
               GitHubIssue.automation_status merged = present a)
         /\ (m !! toString (GitHubIssue.number issue) = None ->
               GitHubIssue.automation_status merged = null)
         /\ same_but_automation_status issue merged.
Proof.
  split.
  - unfold IssuesSlice.merge. apply length_map.
  - intros i issue Hi. exists (IssuesSlice.merge_one m issue).
    rewrite merge_lookup, Hi. split; [reflexivity|].
    rewrite merge_one_status.
    split; [|split].
    + by intros a ->.
    + by intros ->.
    + apply with_automation_status_frame.
Qed.

Lemma merge_attaches_status_by_number_witness :
  exists merged,
    IssuesSlice.merge Sample.statuses [Sample.issue 7; Sample.issue 8] !! 0%nat
      = Some merged
    /\ GitHubIssue.automation_status merged = present Sample.running_status
    /\ same_but_automation_status (Sample.issue 7) merged.
Proof.
  destruct (merge_attaches_status_by_number Sample.statuses
              [Sample.issue 7; Sample.issue 8]) as [_ H].
  destruct (H 0%nat (Sample.issue 7) eq_refl) as (merged & Hm & Hkey & _ & Hframe).
  exists merged. split; [exact Hm|]. split; [|exact Hframe].
  apply Hkey. reflexivity.
Defined.

(** C8. Merging the same mapping a second time changes nothing. *)
Theorem merge_idempotent
    (m : gmap string AutomationStatus.t) (issues : list GitHubIssue.t) :
  IssuesSlice.merge m (IssuesSlice.merge m issues) = IssuesSlice.merge m issues.
Proof.
  unfold IssuesSlice.merge. rewrite map_map.
  apply map_ext. intros issue. reflexivity.
Qed.

(* ===================================================================== *)
(** ** Properties of the reducers                                         *)
(* ===================================================================== *)

(** C7. [setFilters] is a right-biased merge: a field present in the payload
    takes the payload's value, a field missing from it keeps its value, and
    the rest of the slice is not touched. *)
Theorem setFilters_right_biased_merge
    (st : IssuesSlice.IssuesState) (payload : Filters.partial) :
  let st' := IssuesSlice.reducer st (setFilters payload) in
  let old := IssuesSlice.filters st in
  let new := IssuesSlice.filters st' in
  ((forall v, Filters.state_opt payload = Some v -> Filters.state new = v)
   /\ (Filters.state_opt payload = None -> Filters.state new = Filters.state old))
  /\ ((forall v, Filters.assignee_opt payload = Some v -> Filters.assignee new = v)
      /\ (Filters.assignee_opt payload = None ->
            Filters.assignee new = Filters.assignee old))
  /\ ((forall v, Filters.label_opt payload = Some v -> Filters.label new = v)
      /\ (Filters.label_opt payload = None -> Filters.label new = Filters.label old))
  /\ ((forall v, Filters.sort_opt payload = Some v -> Filters.sort new = v)
      /\ (Filters.sort_opt payload = None -> Filters.sort new = Filters.sort old))
  /\ ((forall v, Filters.direction_opt payload = Some v -> Filters.direction new = v)
      /\ (Filters.direction_opt payload = None ->
            Filters.direction new = Filters.direction old))
  /\ IssuesSlice.issues st' = IssuesSlice.issues st
  /\ IssuesSlice.loading st' = IssuesSlice.loading st
  /\ IssuesSlice.error st' = IssuesSlice.error st.
Proof.
  simpl. repeat split; try (intros v Hv; rewrite Hv; reflexivity);
    intros Hv; rewrite Hv; reflexivity.
Qed.

Lemma setFilters_right_biased_merge_witness :
  let payload :=
    {| Filters.state_opt := Some Filters.closed; Filters.assignee_opt := None;
       Filters.label_opt := Some "bug"; Filters.sort_opt := None;
       Filters.direction_opt := None |} in
  let new :=
    IssuesSlice.filters (IssuesSlice.reducer IssuesSlice.initialState (setFilters payload)) in
  Filters.state new = Filters.closed
  /\ Filters.assignee new = ""
  /\ Filters.label new = "bug"
  /\ Filters.sort new = Filters.created
  /\ Filters.direction new = Filters.desc.
Proof.
  intros payload new.
  destruct (setFilters_right_biased_merge IssuesSlice.initialState payload)
    as ([Hs _] & [_ Ha] & [Hl _] & [_ Hso] & [_ Hd] & _).
  split; [apply Hs; reflexivity|].
  split; [apply Ha; reflexivity|].
  split; [apply Hl; reflexivity|].
  split; [apply Hso; reflexivity|apply Hd; reflexivity].
Defined.

Lemma assign_automation_status_length n s issues :
  length (IssuesSlice.assign_automation_status n s issues) = length issues.
Proof.
  unfold IssuesSlice.assign_automation_status.
  destruct (list_find _ _) as [[i issue]|]; [apply length_insert|reflexivity].
Qed.

(** The first issue with number [n] gets the status. *)
Lemma assign_automation_status_first n s issues i issue :
  issues !! i = Some issue ->
  GitHubIssue.number issue = n ->
  (forall j other, issues !! j = Some other -> (j < i)%nat ->
     GitHubIssue.number other <> n) ->
  IssuesSlice.assign_automation_status n s issues !! i
  = Some (GitHubIssue.with_automation_status (present s) issue).
Proof.
  intros Hi Hnum Hmin. unfold IssuesSlice.assign_automation_status.
  destruct (list_find _ _) as [[k found]|] eqn:Hfind.
  - apply list_find_Some in Hfind as (Hk & Hn & Hfirst).
    destruct (Nat.lt_total i k) as [Hlt | [-> | Hgt]].
    + by destruct (Hfirst i issue).
    + rewrite list_lookup_insert_eq by (by eapply lookup_lt_Some). congruence.
    + by destruct (Hmin k found).
  - apply list_find_None in Hfind. rewrite Forall_forall in Hfind.
    destruct (Hfind issue); [by eapply list_elem_of_lookup_2|exact Hnum].
Qed.

(** Every position holds either the issue it held or that issue with the
    new status, and the latter only where the number is [n]. *)
Lemma assign_automation_status_lookup n s issues i issue :
  issues !! i = Some issue ->
  IssuesSlice.assign_automation_status n s issues !! i = Some issue
  \/ (GitHubIssue.number issue = n
      /\ IssuesSlice.assign_automation_status n s issues !! i
         = Some (GitHubIssue.with_automation_status (present s) issue)).
Proof.
  intros Hi. unfold IssuesSlice.assign_automation_status.
  destruct (list_find _ _) as [[k found]|] eqn:Hfind; [|by left].
  apply list_find_Some in Hfind as (Hk & Hn & Hfirst).
  destruct (decide (k = i)) as [->|Hne].
  - right. assert (found = issue) as -> by congruence.
    split; [exact Hn|]. apply list_lookup_insert_eq. by eapply lookup_lt_Some.
  - left. by rewrite list_lookup_insert_ne.
Qed.

Lemma assign_automation_status_absent n s issues :
  Forall (fun issue => GitHubIssue.number issue <> n) issues ->
  IssuesSlice.assign_automation_status n s issues = issues.
Proof.
  intros Hall. unfold IssuesSlice.assign_automation_status.
  by rewrite (proj2 (list_find_None _ issues) Hall).
Qed.

(** The frame of an assignment to one issue's [automation_status]. *)
Lemma assign_automation_status_frame n s issues :
  length (IssuesSlice.assign_automation_status n s issues) = length issues
  /\ (forall i issue, issues !! i = Some issue -> GitHubIssue.number issue <> n ->
        IssuesSlice.assign_automation_status n s issues !! i = Some issue)
  /\ (forall i issue, issues !! i = Some issue ->
        exists issue',
          IssuesSlice.assign_automation_status n s issues !! i = Some issue'
          /\ same_but_automation_status issue issue'
          /\ (issue' = issue
              \/ GitHubIssue.automation_status issue' = present s))
  /\ (forall i j,
        IssuesSlice.assign_automation_status n s issues !! i <> issues !! i ->
        IssuesSlice.assign_automation_status n s issues !! j <> issues !! j ->
        i = j)
  /\ (Forall (fun issue => GitHubIssue.number issue <> n) issues ->
        IssuesSlice.assign_automation_status n s issues = issues).
Proof.
  split; [apply assign_automation_status_length|].
  split; [|split; [|split]].
  - intros i issue Hi Hne.
    by destruct (assign_automation_status_lookup n s issues i issue Hi) as [?|[? _]].
  - intros i issue Hi.
    destruct (assign_automation_status_lookup n s issues i issue Hi) as [H|[_ H]].
    + exists issue. split; [exact H|]. split; [|by left]. repeat split.
    + eexists. split; [exact H|]. split; [apply with_automation_status_frame|].
      right. reflexivity.
  - unfold IssuesSlice.assign_automation_status.
    destruct (list_find _ _) as [[k found]|]; [|done].
    intros i j Hi Hj.
    destruct (decide (k = i)) as [->|Hki];
      [|by rewrite list_lookup_insert_ne in Hi].
    destruct (decide (i = j)) as [->|Hkj]; [done|].
    by rewrite list_lookup_insert_ne in Hj.
  - apply assign_automation_status_absent.
Qed.

Lemma assign_touches_only_status_of n s st :
  touches_only_status_of n st
    {| IssuesSlice.issues :=
         IssuesSlice.assign_automation_status n s (IssuesSlice.issues st);
       IssuesSlice.loading := IssuesSlice.loading st;
       IssuesSlice.error := IssuesSlice.error st;
       IssuesSlice.filters := IssuesSlice.filters st |}.
Proof.
  destruct (assign_automation_status_frame n s (IssuesSlice.issues st))
    as (Hlen & Hother & Hsame & Hone & Hnone).
  unfold touches_only_status_of. simpl.
  split; [reflexivity|]. split; [reflexivity|]. split; [reflexivity|].
  split; [exact Hlen|]. split; [exact Hother|]. split; [|split; [exact Hone|]].
  - intros i issue Hi. destruct (Hsame i issue Hi) as (issue' & H1 & H2 & _).
    by exists issue'.
  - intros Hall. rewrite (Hnone Hall). by destruct st.
Qed.

(** C10. The [updateIssueAutomationStatus] reducer and the success handler of
    [retryAutomation] change at most the [automation_status] of one issue,
    whose number is the action's; the other issues, the filters and the
    loading and error fields stay, and the state is unchanged when no issue
    has that number. *)
Theorem status_writes_touch_one_issue
    (st : IssuesSlice.IssuesState) (n : Z) (s : AutomationStatus.t) (label : string) :
  touches_only_status_of n st
    (IssuesSlice.reducer st (updateIssueAutomationStatus n s))
  /\ touches_only_status_of n st
       (IssuesSlice.reducer st (retryAutomation_fulfilled n label)).
Proof. split; apply assign_touches_only_status_of. Qed.

Lemma status_writes_touch_one_issue_witness :
  let st := issues_state (Sample.store [Sample.issue 7; Sample.issue 8]) in
  IssuesSlice.reducer st (updateIssueAutomationStatus 9 Sample.running_status) = st
  /\ IssuesSlice.issues (IssuesSlice.reducer st (retryAutomation_fulfilled 7 "pending"))
       !! 1%nat = Some (Sample.issue 8).
Proof.
  intros st.
  destruct (status_writes_touch_one_issue st 9 Sample.running_status "pending")
    as [(_ & _ & _ & _ & _ & _ & _ & Hnone) _].
  destruct (status_writes_touch_one_issue st 7 Sample.running_status "pending")
    as [_ (_ & _ & _ & _ & Hother & _)].
  split.
  - apply Hnone. repeat constructor; simpl; lia.
  - apply Hother; [reflexivity|simpl; lia].
Defined.

(* ===================================================================== *)
(** ** Properties of the pull-request filter                              *)
(* ===================================================================== *)

Lemma without_pull_requests_sublist items :
  sublist (IssuesSlice.without_pull_requests items) items.
Proof.
  induction items as [|item items IH]; simpl; [constructor|].
  destruct (negb _); by constructor.
Qed.

(** C3. For every array returned by the remote issue source, where the marker
    a pull request carries is an object (any truthy value will do), the
    result of the filter holds no item carrying the marker, keeps the
    remaining items in their relative order, and is exactly the subsequence
    of the items without the marker field. *)
Theorem pull_request_filter_drops_marked_items (items : list GitHubIssue.t) :
  Forall (fun item => forall v, GitHubIssue.pull_request item = Some v ->
            truthy v = true) items ->
  Forall (fun item => carries_marker item = false)
    (IssuesSlice.without_pull_requests items)
  /\ sublist (IssuesSlice.without_pull_requests items) items
  /\ IssuesSlice.without_pull_requests items
     = List.filter (fun item => negb (carries_marker item)) items.
Proof.
  intros Hall.
  assert (IssuesSlice.without_pull_requests items
          = List.filter (fun item => negb (carries_marker item)) items) as Heq.
  { induction Hall as [|item items Hitem _ IH]; [reflexivity|].
    unfold IssuesSlice.without_pull_requests in *. cbn [List.filter].
    rewrite IH. unfold carries_marker.
    destruct (GitHubIssue.pull_request item) as [v|] eqn:E; [|reflexivity].
    change (truthy (Some v)) with (truthy v).
    by rewrite (Hitem v eq_refl). }
  split; [|split; [apply without_pull_requests_sublist|exact Heq]].
  rewrite Heq. clear.
  induction items as [|item items IH]; simpl; [constructor|].
  destruct (carries_marker item) eqn:E; simpl; [exact IH|]. by constructor.
Qed.

Lemma pull_request_filter_drops_marked_items_witness :
  IssuesSlice.without_pull_requests
    [Sample.issue 1; Sample.marked 2 (JsObject [("url", JsString "https://api.github.com/repos/octocat/hello-world/pulls/2")]);
     Sample.issue 3]
  = [Sample.issue 1; Sample.issue 3].
Proof.
  destruct (pull_request_filter_drops_marked_items
              [Sample.issue 1;
               Sample.marked 2 (JsObject [("url", JsString "https://api.github.com/repos/octocat/hello-world/pulls/2")]);
               Sample.issue 3]) as (_ & _ & Heq); [|exact Heq].
  repeat constructor; simpl; intros v Hv; inversion Hv; reflexivity.
Defined.

(* ===================================================================== *)
(** ** Properties of the query                                            *)
(* ===================================================================== *)

Lemma truthy_string_nonempty (s : string) : truthy s = true <-> s <> "".
Proof. destruct s; simpl; split; (congruence || discriminate || done). Qed.

(** C2. For fully populated criteria the query has a [state] parameter
    exactly when the state is not [all], an [assignee] parameter exactly when
    the assignee is not empty, a single [labels] parameter exactly when the
    label is not empty, and always [sort], [direction] and [per_page=100];
    it is what follows the question mark of the requested address.  For
    open/created/desc with empty assignee and label the query string is
    [state=open&sort=created&direction=desc&per_page=100]. *)
Theorem query_parameters (env : Env) (owner repo : string) (f : Filters.t) :
  let ps := IssuesSlice.query (Some (Filters.full f)) in
  URLSearchParams.getAll "state" ps
    = (if bool_decide (Filters.state f = Filters.all) then []
       else [Filters.StateFilter_string (Filters.state f)])
  /\ URLSearchParams.getAll "assignee" ps
     = (if bool_decide (Filters.assignee f = "") then [] else [Filters.assignee f])
  /\ URLSearchParams.getAll "labels" ps
     = (if bool_decide (Filters.label f = "") then [] else [Filters.label f])
  /\ URLSearchParams.getAll "sort" ps = [Filters.SortKey_string (Filters.sort f)]
  /\ URLSearchParams.getAll "direction" ps
     = [Filters.Direction_string (Filters.direction f)]
  /\ URLSearchParams.getAll "per_page" ps = ["100"]
  /\ (URLSearchParams.has "state" ps = true <-> Filters.state f <> Filters.all)
  /\ (URLSearchParams.has "assignee" ps = true <-> Filters.assignee f <> "")
  /\ (URLSearchParams.has "labels" ps = true <-> Filters.label f <> "")
  /\ url (IssuesSlice.issues_request env owner repo (Some (Filters.full f)))
     = "https://api.github.com/repos/" +:+ owner +:+ "/" +:+ repo +:+ "/issues?"
       +:+ URLSearchParams.toString ps
  /\ URLSearchParams.toString
       (IssuesSlice.query (Some (Filters.full Sample.open_filters)))
     = "state=open&sort=created&direction=desc&per_page=100"
  /\ URLSearchParams.has "assignee"
       (IssuesSlice.query (Some (Filters.full Sample.open_filters))) = false
  /\ URLSearchParams.has "labels"
       (IssuesSlice.query (Some (Filters.full Sample.open_filters))) = false.
Proof.
  destruct f as [st a l so d]. cbn zeta.
  cbn [Filters.state Filters.assignee Filters.label Filters.sort Filters.direction].
  split; [by destruct st, a, l|].
  split; [by destruct st, a, l|].
  split; [by destruct st, a, l|].
  split; [by destruct st, a, l, so|].
  split; [by destruct st, a, l, d|].
  split; [by destruct st, a, l|].
  split; [destruct st, a, l; split; (done || discriminate)|].
  split; [destruct st, a, l; split; (done || discriminate)|].
  split; [destruct st, a, l; split; (done || discriminate)|].
  split; [reflexivity|].
  split; [reflexivity|]. split; reflexivity.
Qed.

(** The scenario with only [state], [sort] and [direction] given. *)
Example query_of_three_fields (owner repo : string) :
  IssuesSlice.issues_url owner repo
    (Some {| Filters.state_opt := Some Filters.open; Filters.assignee_opt := None;
             Filters.label_opt := None; Filters.sort_opt := Some Filters.created;
             Filters.direction_opt := Some Filters.desc |})
  = "https://api.github.com/repos/" +:+ owner +:+ "/" +:+ repo
    +:+ "/issues?state=open&sort=created&direction=desc&per_page=100".
Proof. reflexivity. Qed.

(** Values that need escaping are percent-encoded in the query string. *)
Example query_escapes_label :
  URLSearchParams.toString
    (IssuesSlice.query
       (Some (Filters.full
                {| Filters.state := Filters.all; Filters.assignee := "";
                   Filters.label := "good first issue"; Filters.sort := Filters.updated;
                   Filters.direction := Filters.asc |})))
  = "labels=good+first+issue&sort=updated&direction=asc&per_page=100".
Proof. reflexivity. Qed.

(* ===================================================================== *)
(** ** Running programs                                                   *)
(* ===================================================================== *)

Lemma run_bind {A B} net (p : Prog A) (f : A -> Prog B) :
  run net (bind p f)
  = match (run net p).1 with
    | Returned a => ((run net (f a)).1, (run net p).2 ++ (run net (f a)).2)
    | Thrown e => (Thrown e, (run net p).2)
    end.
Proof.
  induction p as [a|e|req k IH|ev k IH]; simpl.
  - by destruct (run net (f a)).
  - reflexivity.
  - rewrite IH. by destruct (run net (k (net req))).1.
  - rewrite IH. by destruct (run net k).1.
Qed.

Lemma run_try_catch {A} net (p : Prog A) (h : JsError -> Prog A) :
  run net (try_catch p h)
  = match (run net p).1 with
    | Returned a => (Returned a, (run net p).2)
    | Thrown e => ((run net (h e)).1, (run net p).2 ++ (run net (h e)).2)
    end.
Proof.
  induction p as [a|e|req k IH|ev k IH]; simpl.
  - reflexivity.
  - by destruct (run net (h e)).
  - rewrite IH. by destruct (run net (k (net req))).1.
  - rewrite IH. by destruct (run net k).1.
Qed.

Lemma run_fetch net req :
  run net (fetch req)
  = (match net req with
     | Responded r => Returned r
     | NetworkFailure => Thrown (TypeError "Failed to fetch")
     end, [Sent req]).
Proof. simpl. by destruct (net req). Qed.

(** A dispatched thunk: [pending], what the payload creator did, then
    [fulfilled] or [rejected]. *)
Lemma run_createAsyncThunk {A} net pending fulfilled rejected (p : Prog A) :
  run net (createAsyncThunk pending fulfilled rejected p)
  = match (run net p).1 with
    | Returned a =>
        (Returned (Returned a),
         Dispatched pending :: (run net p).2 ++ [Dispatched (fulfilled a)])
    | Thrown e =>
        (Returned (Thrown (serializeError e)),
         Dispatched pending :: (run net p).2
           ++ [Dispatched (rejected (serializeError e))])
    end.
Proof.
  unfold createAsyncThunk. simpl. rewrite run_try_catch, run_bind.
  destruct (run net p) as [[a|e] tr]; simpl; reflexivity.
Qed.

Lemma dispatched_app tr1 tr2 : dispatched (tr1 ++ tr2) = dispatched tr1 ++ dispatched tr2.
Proof. unfold dispatched. apply omap_app. Qed.

Lemma requests_app tr1 tr2 : requests (tr1 ++ tr2) = requests tr1 ++ requests tr2.
Proof. unfold requests. apply omap_app. Qed.

Lemma append_cons c (s t : string) : String c s +:+ t = String c (s +:+ t).
Proof. reflexivity. Qed.

Lemma append_nil_l (s : string) : "" +:+ s = s.
Proof. reflexivity. Qed.

Lemma append_assoc (a b c : string) : (a +:+ b) +:+ c = a +:+ (b +:+ c).
Proof. induction a as [|x a IH]; [reflexivity|]. rewrite !append_cons. congruence. Qed.

Lemma prefix_app (s t : string) : String.prefix s (s +:+ t) = true.
Proof.
  induction s as [|c s IH]; [by destruct t|].
  rewrite append_cons. cbn [String.prefix].
  destruct (ascii_dec c c); [exact IH|done].
Qed.

Lemma includes_prefix (hay needle : string) :
  String.prefix needle hay = true -> includes hay needle = true.
Proof. destruct hay; cbn [includes]; by intros ->. Qed.

Lemma includes_here (s t : string) : includes (s +:+ t) s = true.
Proof. apply includes_prefix, prefix_app. Qed.

Lemma includes_app (before s after : string) :
  includes (before +:+ s +:+ after) s = true.
Proof.
  induction before as [|c before IH].
  - rewrite append_nil_l. apply includes_here.
  - rewrite append_cons. cbn [includes]. rewrite IH. apply orb_true_r.
Qed.

Lemma includes_end (before s : string) : includes (before +:+ s) s = true.
Proof.
  rewrite <- (includes_app before s ""). f_equal. f_equal.
  induction s as [|c s IH]; [reflexivity|]. rewrite append_cons. congruence.
Qed.

(* ===================================================================== *)
(** ** Properties of [fetchIssues]                                        *)
(* ===================================================================== *)

Lemma run_fetchIssues_payload_status_failure env owner repo filters net r items :
  net (IssuesSlice.issues_request env owner repo filters) = Responded r ->
  ok r = true ->
  body r = IssuesBody items ->
  status_fetch_failed (net (IssuesSlice.automation_request owner repo)) ->
  run net (IssuesSlice.fetchIssues_payload env owner repo filters)
  = (Returned (IssuesSlice.without_pull_requests items),
     [Sent (IssuesSlice.issues_request env owner repo filters);
      Sent (IssuesSlice.automation_request owner repo)]
     ++ status_failure_log (net (IssuesSlice.automation_request owner repo))).
Proof.
  intros Hnet Hok Hbody Hfail. unfold IssuesSlice.fetchIssues_payload.
  rewrite run_bind, run_fetch, Hnet. cbn [fst snd]. rewrite Hok. cbn [negb].
  rewrite run_bind. unfold json. rewrite Hbody. cbn [run fst snd].
  rewrite run_bind. cbn [IssuesSlice.filter_data run fst snd].
  rewrite run_bind, run_try_catch, run_bind, run_fetch. cbn [fst snd].
  destruct (net (IssuesSlice.automation_request owner repo)) as [r'|]; simpl in Hfail.
  - rewrite Hfail. reflexivity.
  - reflexivity.
Qed.

Lemma run_fetchIssues_payload_http_error env owner repo filters net r :
  net (IssuesSlice.issues_request env owner repo filters) = Responded r ->
  ok r = false ->
  run net (IssuesSlice.fetchIssues_payload env owner repo filters)
  = (Thrown (Error ("GitHub API error: " +:+ toString (status r) +:+ " "
                    +:+ statusText r)),
     [Sent (IssuesSlice.issues_request env owner repo filters)]).
Proof.
  intros Hnet Hok. unfold IssuesSlice.fetchIssues_payload.
  rewrite run_bind, run_fetch, Hnet. cbn [fst snd]. rewrite Hok. reflexivity.
Qed.

(** C4. When the issue fetch succeeds and the status fetch fails (transport
    failure or a non-2xx response), the thunk is fulfilled with the filtered
    issue list as it is: two requests are made, the failure is at most
    logged, no rejected action is dispatched, and the store ends with that
    list, no error and [loading] off.  Every returned issue is an item of
    the response as it came, so no [automation_status] is populated on
    issues that came without one. *)
Theorem fetchIssues_survives_status_failure
    env owner repo filters (net : Network) (r : Response)
    (items : list GitHubIssue.t) (st : Store) :
  net (IssuesSlice.issues_request env owner repo filters) = Responded r ->
  ok r = true ->
  body r = IssuesBody items ->
  status_fetch_failed (net (IssuesSlice.automation_request owner repo)) ->
  let issues := IssuesSlice.without_pull_requests items in
  let out := run net (IssuesSlice.fetchIssues env owner repo filters) in
  let st' := issues_state (store_after st out.2) in
  out.1 = Returned (Returned issues)
  /\ out.2
     = [Dispatched (IssuesA fetchIssues_pending);
        Sent (IssuesSlice.issues_request env owner repo filters);
        Sent (IssuesSlice.automation_request owner repo)]
       ++ status_failure_log (net (IssuesSlice.automation_request owner repo))
       ++ [Dispatched (IssuesA (fetchIssues_fulfilled issues))]
  /\ IssuesSlice.issues st' = issues
  /\ IssuesSlice.error st' = None
  /\ IssuesSlice.loading st' = false
  /\ sublist issues items
  /\ (Forall (fun item => GitHubIssue.automation_status item = absent) items ->
        Forall (fun issue => GitHubIssue.automation_status issue = absent) issues).
Proof.
  intros Hnet Hok Hbody Hfail issues out st'.
  assert (out = (Returned (Returned issues),
                 [Dispatched (IssuesA fetchIssues_pending);
                  Sent (IssuesSlice.issues_request env owner repo filters);
                  Sent (IssuesSlice.automation_request owner repo)]
                 ++ status_failure_log (net (IssuesSlice.automation_request owner repo))
                 ++ [Dispatched (IssuesA (fetchIssues_fulfilled issues))])) as Hout.
  { unfold out, IssuesSlice.fetchIssues. rewrite run_createAsyncThunk.
    rewrite (run_fetchIssues_payload_status_failure _ _ _ _ _ r items) by done.
    reflexivity. }
  subst st'. rewrite Hout. cbn [fst snd].
  split; [reflexivity|]. split; [reflexivity|].
  unfold store_after. rewrite !dispatched_app.
  assert (dispatched (status_failure_log
                        (net (IssuesSlice.automation_request owner repo))) = []) as ->
    by (by destruct (net (IssuesSlice.automation_request owner repo))).
  split; [reflexivity|]. split; [reflexivity|]. split; [reflexivity|].
  split; [apply without_pull_requests_sublist|].
  intros Hall. unfold issues, IssuesSlice.without_pull_requests.
  rewrite Forall_forall in *. intros issue Hin.
  apply list_elem_of_In, filter_In in Hin as [Hin _].
  apply Hall. by apply list_elem_of_In.
Qed.

Lemma fetchIssues_survives_status_failure_witness :
  let net := Sample.backend_down [Sample.issue 1; Sample.issue 2] in
  let out := run net (IssuesSlice.fetchIssues Sample.env "octocat" "hello-world" None) in
  out.1 = Returned (Returned [Sample.issue 1; Sample.issue 2])
  /\ IssuesSlice.error (issues_state (store_after (Sample.store []) out.2)) = None
  /\ Forall (fun issue => GitHubIssue.automation_status issue = absent)
       [Sample.issue 1; Sample.issue 2].
Proof.
  intros net out.
  pose proof (fetchIssues_survives_status_failure Sample.env "octocat" "hello-world"
                None net
                {| status := 200; statusText := "OK";
                   body := IssuesBody [Sample.issue 1; Sample.issue 2] |}
                [Sample.issue 1; Sample.issue 2] (Sample.store [])
                eq_refl eq_refl eq_refl I) as H.
  cbv zeta in H. destruct H as (Hres & _ & _ & Herr & _ & _ & Habsent).
  split; [exact Hres|]. split; [exact Herr|].
  apply Habsent. repeat constructor.
Defined.

(** C5. A non-2xx response of the remote issue source makes the payload
    creator throw an error whose message carries the status and the reason
    phrase; the thunk is rejected with it, and the store ends with [loading]
    off, that message as [error], and the issue list and filters it had. *)
Theorem fetchIssues_rejected_on_http_error
    env owner repo filters (net : Network) (r : Response) (st : Store) :
  net (IssuesSlice.issues_request env owner repo filters) = Responded r ->
  ok r = false ->
  let msg := "GitHub API error: " +:+ toString (status r) +:+ " " +:+ statusText r in
  let out := run net (IssuesSlice.fetchIssues env owner repo filters) in
  let st' := issues_state (store_after st out.2) in
  (run net (IssuesSlice.fetchIssues_payload env owner repo filters)).1
    = Thrown (Error msg)
  /\ out.1 = Returned (Thrown (Plain (Some msg)))
  /\ dispatched out.2
     = [IssuesA fetchIssues_pending; IssuesA (fetchIssues_rejected (Plain (Some msg)))]
  /\ includes msg (toString (status r)) = true
  /\ includes msg (statusText r) = true
  /\ IssuesSlice.loading st' = false
  /\ IssuesSlice.error st' = Some msg
  /\ IssuesSlice.issues st' = IssuesSlice.issues (issues_state st)
  /\ IssuesSlice.filters st' = IssuesSlice.filters (issues_state st)
  /\ forall s e,
       IssuesSlice.loading (IssuesSlice.reducer s (fetchIssues_rejected e)) = false
       /\ IssuesSlice.issues (IssuesSlice.reducer s (fetchIssues_rejected e))
          = IssuesSlice.issues s.
Proof.
  intros Hnet Hok msg out st'.
  pose proof (run_fetchIssues_payload_http_error env owner repo filters net r Hnet Hok)
    as Hpayload. fold msg in Hpayload.
  assert (out = (Returned (Thrown (Plain (Some msg))),
                 [Dispatched (IssuesA fetchIssues_pending);
                  Sent (IssuesSlice.issues_request env owner repo filters);
                  Dispatched (IssuesA (fetchIssues_rejected (Plain (Some msg))))]))
    as Hout.
  { unfold out, IssuesSlice.fetchIssues. rewrite run_createAsyncThunk, Hpayload.
    reflexivity. }
  subst st'. rewrite Hout, Hpayload. cbn [fst snd].
  split; [reflexivity|]. split; [reflexivity|]. split; [reflexivity|].
  split; [apply (includes_app "GitHub API error: ")|].
  split.
  { replace msg with (("GitHub API error: " +:+ toString (status r) +:+ " ")
                      +:+ statusText r)
      by (unfold msg; rewrite !append_assoc; reflexivity).
    apply includes_end. }
  split; [reflexivity|]. split; [reflexivity|]. split; [reflexivity|].
  split; [reflexivity|]. intros s e. split; reflexivity.
Qed.

Lemma fetchIssues_rejected_on_http_error_witness :
  let out := run (Sample.answers 403 "Forbidden")
               (IssuesSlice.fetchIssues Sample.env "octocat" "hello-world" None) in
  let st' := issues_state (store_after (Sample.store [Sample.issue 1]) out.2) in
  IssuesSlice.error st' = Some "GitHub API error: 403 Forbidden"
  /\ includes "GitHub API error: 403 Forbidden" "403" = true
  /\ IssuesSlice.loading st' = false
  /\ IssuesSlice.issues st' = [Sample.issue 1].
Proof.
  intros out st'.
  pose proof (fetchIssues_rejected_on_http_error Sample.env "octocat" "hello-world"
                None (Sample.answers 403 "Forbidden")
                {| status := 403; statusText := "Forbidden"; body := OtherBody |}
                (Sample.store [Sample.issue 1]) eq_refl eq_refl) as H.
  cbv zeta in H.
  destruct H as (_ & _ & _ & Hinc & _ & Hload & Herr & Hissues & _).
  split; [exact Herr|]. split; [exact Hinc|]. split; [exact Hload|exact Hissues].
Defined.

(* ===================================================================== *)
(** ** Properties of [retryAutomation]                                    *)
(* ===================================================================== *)

Lemma run_retryAutomation_payload owner repo n net :
  run net (IssuesSlice.retryAutomation_payload owner repo n)
  = (match net (IssuesSlice.retry_request owner repo n) with
     | Responded r =>
         if ok r then Returned (n, "pending")
         else Thrown (Error ("Failed to retry automation: " +:+ toString (status r)))
     | NetworkFailure => Thrown (TypeError "Failed to fetch")
     end,
     [Sent (IssuesSlice.retry_request owner repo n)]).
Proof.
  unfold IssuesSlice.retryAutomation_payload. rewrite run_bind, run_fetch.
  cbn [fst snd]. destruct (net _) as [r|]; [|reflexivity].
  by destruct (ok r).
Qed.

Lemma store_after_unhandled_pair st a b tr :
  dispatched tr = [IssuesA a; IssuesA b] ->
  (forall s, IssuesSlice.reducer s a = s) ->
  (forall s, IssuesSlice.reducer s b = s) ->
  store_after st tr = st.
Proof.
  intros Htr Ha Hb. unfold store_after. rewrite Htr. simpl.
  rewrite Ha, Hb. by destruct st.
Qed.

(** C6. [retryAutomation] makes one request, a POST to the retry endpoint of
    the issue.  On a 2xx response the thunk is fulfilled at once and the
    (first) issue with that number has as [automation_status] the object
    whose state is pending and which holds nothing else, [{status: "pending"}].
    On a non-2xx response the thunk is rejected with an error whose message
    carries the status, and the store is what it was. *)
Theorem retryAutomation_posts_once_and_marks_pending
    (owner repo : string) (n : Z) (net : Network) (st : Store) :
  let req := IssuesSlice.retry_request owner repo n in
  let out := run net (IssuesSlice.retryAutomation owner repo n) in
  let st' := store_after st out.2 in
  method req = POST
  /\ url req = "http://localhost:8000/automation-status/" +:+ owner +:+ "/" +:+ repo
               +:+ "/" +:+ toString n +:+ "/retry"
  /\ requests out.2 = [req]
  /\ (forall r, net req = Responded r -> ok r = true ->
        out.2 = [Dispatched (IssuesA retryAutomation_pending); Sent req;
                 Dispatched (IssuesA (retryAutomation_fulfilled n "pending"))]
        /\ (forall i issue,
              IssuesSlice.issues (issues_state st) !! i = Some issue ->
              GitHubIssue.number issue = n ->
              (forall j other, IssuesSlice.issues (issues_state st) !! j = Some other ->
                 (j < i)%nat -> GitHubIssue.number other <> n) ->
              exists issue',
                IssuesSlice.issues (issues_state st') !! i = Some issue'
                /\ GitHubIssue.automation_status issue'
                   = present {| AutomationStatus.status := Some AutomationStatus.pending;
                              AutomationStatus.started_at := None;
                              AutomationStatus.completed_at := None;
                              AutomationStatus.error_message := None;
                              AutomationStatus.task_id := None |}
                /\ same_but_automation_status issue issue'))
  /\ (forall r, net req = Responded r -> ok r = false ->
        out.1 = Returned (Thrown (Plain (Some ("Failed to retry automation: "
                                               +:+ toString (status r)))))
        /\ includes ("Failed to retry automation: " +:+ toString (status r))
             (toString (status r)) = true
        /\ st' = st).
Proof.
  intros req out st'.
  split; [reflexivity|]. split; [reflexivity|].
  subst st' out. unfold IssuesSlice.retryAutomation.
  rewrite run_createAsyncThunk, run_retryAutomation_payload. fold req.
  cbn [fst snd]. split; [by destruct (net req) as [r|]; [destruct (ok r)|]|].
  split.
  - intros r -> ->. split; [reflexivity|].
    intros i issue Hi Hnum Hfirst.
    exists (GitHubIssue.with_automation_status
              (present AutomationStatus.just_pending) issue).
    split; [|split; [reflexivity|apply with_automation_status_frame]].
    unfold store_after. simpl.
    by apply assign_automation_status_first.
  - intros r -> ->. split; [reflexivity|]. split; [apply includes_end|].
    by eapply store_after_unhandled_pair.
Qed.

Lemma retryAutomation_posts_once_and_marks_pending_witness :
  let st := Sample.store [Sample.issue 41; Sample.issue 42] in
  (exists issue',
     IssuesSlice.issues
       (issues_state
          (store_after st
             (run (Sample.answers 202 "Accepted")
                  (IssuesSlice.retryAutomation "octocat" "hello-world" 42)).2))
       !! 1%nat = Some issue'
     /\ GitHubIssue.automation_status issue'
        = present {| AutomationStatus.status := Some AutomationStatus.pending;
                              AutomationStatus.started_at := None;
                              AutomationStatus.completed_at := None;
                              AutomationStatus.error_message := None;
                              AutomationStatus.task_id := None |})
  /\ store_after st
       (run (Sample.answers 500 "Internal Server Error")
            (IssuesSlice.retryAutomation "octocat" "hello-world" 42)).2 = st.
Proof.
  intros st. split.
  - pose proof (retryAutomation_posts_once_and_marks_pending "octocat" "hello-world"
                  42 (Sample.answers 202 "Accepted") st) as H.
    cbv zeta in H. destruct H as (_ & _ & _ & Hok & _).
    destruct (Hok {| status := 202; statusText := "Accepted"; body := OtherBody |}
                eq_refl eq_refl) as [_ Hset].
    destruct (Hset 1%nat (Sample.issue 42) eq_refl eq_refl) as (issue' & H1 & H2 & _).
    + intros j other Hj Hlt. destruct j as [|j]; [|lia].
      inversion Hj. simpl. lia.
    + exists issue'. by split.
  - pose proof (retryAutomation_posts_once_and_marks_pending "octocat" "hello-world"
                  42 (Sample.answers 500 "Internal Server Error") st) as H.
    cbv zeta in H. destruct H as (_ & _ & _ & _ & Hfail).
    destruct (Hfail {| status := 500; statusText := "Internal Server Error";
                       body := OtherBody |} eq_refl eq_refl) as (_ & _ & Hst).
    exact Hst.
Defined.

(* ===================================================================== *)
(** ** Properties of the add-repository handler                           *)
(* ===================================================================== *)

(** C9. On the dashboard, which is rendered for a signed-in user only, when
    the candidate's full name is the full name of a repository of the list:
    the handler shows "This repository is already added" and returns without
    making any request or dispatching any action, so the store and its
    repository list are unchanged. *)
Theorem duplicate_add_rejected_before_any_request
    (env : Env) (net : Network) (c : DashboardPage.Props)
    (selected : DashboardPage.BrowserRepo) (u : DashboardPage.User.t)
    (existing : Repository.t) (st : Store) :
  DashboardPage.selectedRepoFromBrowser c = Some selected ->
  DashboardPage.user c = Some u ->
  In existing (DashboardPage.repositories c) ->
  Repository.full_name existing = DashboardPage.full_name selected ->
  let out := run net (DashboardPage.validateAndAddRepository env c) in
  out.1 = Returned tt
  /\ out.2 = [SetIsValidating true;
              ToastError "This repository is already added";
              SetIsValidating false; SetIsValidating false]
  /\ requests out.2 = []
  /\ dispatched out.2 = []
  /\ store_after st out.2 = st
  /\ RepositorySlice.repositories (repositories_state (store_after st out.2))
     = RepositorySlice.repositories (repositories_state st).
Proof.
  intros Hsel Huser Hin Hname out. subst out.
  unfold DashboardPage.validateAndAddRepository. rewrite Hsel, Huser.
  destruct (list_find _ _) as [[i found]|] eqn:Hfind.
  - simpl. repeat split; done.
  - apply list_find_None in Hfind. rewrite Forall_forall in Hfind.
    destruct (Hfind existing); [by apply list_elem_of_In|exact Hname].
Qed.

Lemma duplicate_add_rejected_before_any_request_witness :
  let out := run (Sample.answers 200 "OK")
               (DashboardPage.validateAndAddRepository Sample.env
                  (Sample.dashboard (Some {| DashboardPage.User.id := "u-1" |}))) in
  requests out.2 = []
  /\ In (ToastError "This repository is already added") out.2.
Proof.
  intros out.
  pose proof (duplicate_add_rejected_before_any_request Sample.env
                (Sample.answers 200 "OK")
                (Sample.dashboard (Some {| DashboardPage.User.id := "u-1" |}))
                Sample.picked_hello_world {| DashboardPage.User.id := "u-1" |}
                Sample.hello_world (Sample.store [])
                eq_refl eq_refl (or_introl eq_refl) eq_refl) as H.
  cbv zeta in H. destruct H as (_ & Htrace & Hreq & _).
  split; [exact Hreq|].
  unfold out. rewrite Htrace. right. left. reflexivity.
Defined.

(* ===================================================================== *)
(** ** Further properties of the merge and of status writes              *)
(* ===================================================================== *)

Lemma merge_one_ignores_status m s issue :
  IssuesSlice.merge_one m (GitHubIssue.with_automation_status s issue)
  = IssuesSlice.merge_one m issue.
Proof. reflexivity. Qed.

Lemma merge_without_pull_requests m items :
  IssuesSlice.without_pull_requests (IssuesSlice.merge m items)
  = IssuesSlice.merge m (IssuesSlice.without_pull_requests items).
Proof.
  induction items as [|item items IH]; [reflexivity|].
  unfold IssuesSlice.merge, IssuesSlice.without_pull_requests in *.
  cbn [map List.filter]. rewrite IH.
  change (GitHubIssue.pull_request (IssuesSlice.merge_one m item))
    with (GitHubIssue.pull_request item).
  by destruct (negb (truthy (GitHubIssue.pull_request item))).
Qed.


(** X1. The merge and the pull-request filter commute, and the merge keeps
    the issue numbers in place: filtering before or after attaching the
    statuses gives the same list. *)
Theorem merge_commutes_with_pull_request_filter
    (m : gmap string AutomationStatus.t) (items : list GitHubIssue.t) :
  IssuesSlice.without_pull_requests (IssuesSlice.merge m items)
  = IssuesSlice.merge m (IssuesSlice.without_pull_requests items)
  /\ map GitHubIssue.number (IssuesSlice.merge m items)
     = map GitHubIssue.number items.
Proof.
  split; [apply merge_without_pull_requests|].
  unfold IssuesSlice.merge. rewrite map_map. reflexivity.
Qed.

(** X2. A merge overrides whatever status the issues had: the result of an
    earlier merge with another mapping, or a status written by a reducer,
    leaves no mark once the list is merged again. *)
Theorem merge_overrides_earlier_status
    (m m' : gmap string AutomationStatus.t) (n : Z) (s : AutomationStatus.t)
    (issues : list GitHubIssue.t) :
  IssuesSlice.merge m (IssuesSlice.merge m' issues) = IssuesSlice.merge m issues
  /\ IssuesSlice.merge m (IssuesSlice.assign_automation_status n s issues)
     = IssuesSlice.merge m issues.
Proof.
  split.
  - unfold IssuesSlice.merge. rewrite map_map. apply map_ext. reflexivity.
  - unfold IssuesSlice.assign_automation_status.
    destruct (list_find _ _) as [[i found]|] eqn:Hfind; [|reflexivity].
    apply list_find_Some in Hfind as (Hi & _ & _).
    unfold IssuesSlice.merge. apply list_eq. intros j.
    rewrite !list_lookup_fmap.
    destruct (decide (i = j)) as [->|Hne].
    + rewrite list_lookup_insert_eq by (by eapply lookup_lt_Some). by rewrite Hi.
    + by rewrite list_lookup_insert_ne.
Qed.

Lemma merge_agree (m1 m2 : gmap string AutomationStatus.t) issues :
  (forall issue, In issue issues ->
     m1 !! toString (GitHubIssue.number issue)
     = m2 !! toString (GitHubIssue.number issue)) ->
  IssuesSlice.merge m1 issues = IssuesSlice.merge m2 issues.
Proof.
  intros Hagree. unfold IssuesSlice.merge. apply map_ext_in.
  intros issue Hin. unfold IssuesSlice.merge_one. by rewrite (Hagree issue Hin).
Qed.

(** X3. Only the entries under the numbers of the listed issues matter: two
    mappings that agree on those keys merge to the same list, and an entry
    filed under the number of an issue that is not in the list is ignored. *)
Theorem merge_depends_on_listed_numbers
    (m1 m2 : gmap string AutomationStatus.t) (n : Z) (a : AutomationStatus.t)
    (issues : list GitHubIssue.t) :
  ((forall issue, In issue issues ->
      m1 !! toString (GitHubIssue.number issue)
      = m2 !! toString (GitHubIssue.number issue)) ->
   IssuesSlice.merge m1 issues = IssuesSlice.merge m2 issues)
  /\ (Forall (fun issue => GitHubIssue.number issue <> n) issues ->
      IssuesSlice.merge (<[toString n := a]> m1) issues = IssuesSlice.merge m1 issues).
Proof.
  split; [apply merge_agree|].
  intros Hall. apply merge_agree. intros issue Hin.
  rewrite Forall_forall in Hall. apply lookup_insert_ne.
  intros Heq. apply (Hall issue); [by apply list_elem_of_In|].
  unfold toString in Heq. by apply (inj pretty) in Heq.
Qed.

Lemma merge_depends_on_listed_numbers_witness :
  IssuesSlice.merge (<[toString 9 := AutomationStatus.just_pending]> Sample.statuses)
    [Sample.issue 7; Sample.issue 8]
  = IssuesSlice.merge Sample.statuses [Sample.issue 7; Sample.issue 8].
Proof.
  apply (merge_depends_on_listed_numbers Sample.statuses Sample.statuses).
  repeat constructor; simpl; lia.
Defined.

(** X4. Status writes to one issue number are last-write-wins: a second
    write replaces the first, so writing the same status twice is writing it
    once. *)
Theorem assign_automation_status_last_write_wins
    (n : Z) (s1 s2 : AutomationStatus.t) (issues : list GitHubIssue.t) :
  IssuesSlice.assign_automation_status n s2
    (IssuesSlice.assign_automation_status n s1 issues)
  = IssuesSlice.assign_automation_status n s2 issues.
Proof.
  unfold IssuesSlice.assign_automation_status at 2 3.
  destruct (list_find _ issues) as [[i found]|] eqn:Hfind.
  - pose proof Hfind as (Hi & Hn & Hfirst)%list_find_Some.
    unfold IssuesSlice.assign_automation_status.
    assert (list_find (fun issue => GitHubIssue.number issue = n)
              (<[i:=GitHubIssue.with_automation_status (present s1) found]> issues)
            = Some (i, GitHubIssue.with_automation_status (present s1) found)) as ->.
    { apply list_find_Some. split; [|split].
      - apply list_lookup_insert_eq. by eapply lookup_lt_Some.
      - exact Hn.
      - intros j other Hj Hlt. rewrite list_lookup_insert_ne in Hj by lia.
        by apply (Hfirst j other). }
    by rewrite list_insert_insert_eq.
  - unfold IssuesSlice.assign_automation_status. by rewrite Hfind.
Qed.

(* ===================================================================== *)
(** ** What the issues reducer leaves alone                               *)
(* ===================================================================== *)

Lemma assign_automation_status_numbers n s issues :
  map GitHubIssue.number (IssuesSlice.assign_automation_status n s issues)
  = map GitHubIssue.number issues.
Proof.
  unfold IssuesSlice.assign_automation_status.
  destruct (list_find _ _) as [[i found]|] eqn:Hfind; [|reflexivity].
  apply list_find_Some in Hfind as (Hi & _ & _).
  apply list_eq. intros j. rewrite !list_lookup_fmap.
  destruct (decide (i = j)) as [->|Hne].
  - rewrite list_lookup_insert_eq by (by eapply lookup_lt_Some). by rewrite Hi.
  - by rewrite list_lookup_insert_ne.
Qed.

(** X5. Over any sequence of actions: the filters are changed by [setFilters]
    only (they are the successive merges of its payloads); unless the list is
    replaced by a fulfilled fetch or cleared, the issue numbers stay in
    place; and [loading] moves only with the lifecycle of [fetchIssues]. *)
Theorem issues_reducer_frames
    (st : IssuesSlice.IssuesState) (actions : list IssuesAction) :
  let st' := fold_left IssuesSlice.reducer actions st in
  IssuesSlice.filters st'
    = fold_left Filters.spread (setFilters_payloads actions) (IssuesSlice.filters st)
  /\ (forallb (fun a => negb (replaces_issues a)) actions = true ->
      map GitHubIssue.number (IssuesSlice.issues st')
      = map GitHubIssue.number (IssuesSlice.issues st))
  /\ (forallb (fun a => negb (fetchIssues_lifecycle a)) actions = true ->
      IssuesSlice.loading st' = IssuesSlice.loading st).
Proof.
  revert st. induction actions as [|a actions IH]; intros st; [by repeat split|].
  cbn [fold_left]. destruct (IH (IssuesSlice.reducer st a)) as (Hf & Hn & Hl).
  split; [|split].
  - rewrite Hf. by destruct a.
  - intros [Ha Hrest]%andb_prop. rewrite (Hn Hrest).
    destruct a; try discriminate Ha; try reflexivity;
      apply assign_automation_status_numbers.
  - intros [Ha Hrest]%andb_prop. rewrite (Hl Hrest).
    by destruct a.
Qed.

Lemma issues_reducer_frames_witness :
  let st := issues_state (Sample.store [Sample.issue 7; Sample.issue 8]) in
  let st' :=
    fold_left IssuesSlice.reducer
      [updateIssueAutomationStatus 7 Sample.running_status;
       retryAutomation_fulfilled 8 "pending"; clearError;
       retryAutomation_rejected (Plain None)] st in
  map GitHubIssue.number (IssuesSlice.issues st') = [7; 8]
  /\ IssuesSlice.loading st' = false.
Proof.
  intros st st'.
  pose proof (issues_reducer_frames st
                [updateIssueAutomationStatus 7 Sample.running_status;
                 retryAutomation_fulfilled 8 "pending"; clearError;
                 retryAutomation_rejected (Plain None)]) as H.
  cbv zeta in H. destruct H as (_ & Hn & Hl).
  split; [exact (Hn eq_refl)|exact (Hl eq_refl)].
Defined.

(* ===================================================================== *)
(** ** Further properties of the query and of the requests                *)
(* ===================================================================== *)

(** X6. Whatever part of the criteria is given, or none at all: no parameter
    name occurs twice, the query ends with [sort], [direction] and
    [per_page=100] in that order, a missing sort key or direction falls back
    to [created] and [desc], and there are between three and six
    parameters. *)
Theorem query_shape (filters : option Filters.partial) :
  let ps := IssuesSlice.query filters in
  NoDup (map fst ps)
  /\ (exists optional,
        ps = optional
             ++ [("sort", Filters.SortKey_string
                            (default Filters.created
                               (optional_chain filters Filters.sort_opt)));
                 ("direction", Filters.Direction_string
                                 (default Filters.desc
                                    (optional_chain filters Filters.direction_opt)));
                 ("per_page", "100")]
        /\ Forall (fun p => In p.1 ["state"; "assignee"; "labels"]) optional)
  /\ (3 <= length ps <= 6)%nat.
Proof.
  cbv zeta.
  destruct filters as [[st a l so d]|]; cbn [optional_chain Filters.sort_opt
    Filters.direction_opt default].
  2:{ split; [compute_done|]. split; [|simpl; lia].
      exists []. split; [reflexivity|constructor]. }
  destruct st as [[]|], a as [[|c a]|], l as [[|c' l]|], so as [[]|], d as [[]|];
    (split; [compute_done|split; [|simpl; lia]]);
    match goal with
    | |- exists optional, ?ps = _ /\ _ =>
        exists (take (length ps - 3) ps); split; [reflexivity|]
    end;
    cbn; repeat first [apply Forall_nil_2 | apply Forall_cons_2; [cbn; auto 6|]].
Qed.

(* ===================================================================== *)
(** ** [fetchIssues] against any network                                  *)
(* ===================================================================== *)

(** The payload creator throws after the issue request alone when that
    request is not answered with a 2xx array, and otherwise returns after
    both requests the filtered items, merged or not. *)
Lemma run_fetchIssues_payload_cases env owner repo filters (net : Network) :
  let req1 := IssuesSlice.issues_request env owner repo filters in
  let req2 := IssuesSlice.automation_request owner repo in
  (~ (exists r items, net req1 = Responded r /\ ok r = true
                      /\ body r = IssuesBody items)
   /\ exists e, run net (IssuesSlice.fetchIssues_payload env owner repo filters)
                = (Thrown e, [Sent req1]))
  \/ (exists r items log l,
        net req1 = Responded r /\ ok r = true /\ body r = IssuesBody items
        /\ run net (IssuesSlice.fetchIssues_payload env owner repo filters)
           = (Returned l, [Sent req1; Sent req2] ++ log)
        /\ dispatched log = [] /\ requests log = []
        /\ (l = IssuesSlice.without_pull_requests items
            \/ exists m, l = IssuesSlice.merge m (IssuesSlice.without_pull_requests items))).
Proof.
  intros req1 req2. unfold IssuesSlice.fetchIssues_payload. fold req1 req2.
  rewrite run_bind, run_fetch. cbn [fst snd].
  destruct (net req1) as [r|] eqn:Hnet.
  2:{ left. split; [by intros (? & ? & [=] & _)|by eexists]. }
  destruct (ok r) eqn:Hok; cbn [negb].
  2:{ left. split; [|by eexists]. intros (? & ? & [= <-] & ? & _). congruence. }
  rewrite run_bind. unfold json.
  destruct (body r) as [items| | | | | |] eqn:Hbody;
    try (left; split; [|by eexists];
         intros (? & ? & [= <-] & _ & ?); congruence).
  right. exists r, items. cbn [run fst snd]. rewrite run_bind.
  cbn [IssuesSlice.filter_data run fst snd].
  rewrite run_bind, run_try_catch, run_bind, run_fetch. cbn [fst snd].
  destruct (net req2) as [r'|]; [|eexists _, _; repeat split; eauto].
  destruct (ok r') eqn:Hok'; [|eexists [], _; repeat split; eauto].
  rewrite run_bind.
  destruct (body r') as [items'|m| | | | |] eqn:Hbody';
    cbn [run fst snd bind IssuesSlice.automation_statuses_of];
    first [by (eexists [], _; repeat split; eauto)
          | eexists _, _; repeat split; eauto ].
Qed.



(** The payload creator once the issue request has been answered with a
    2xx array and the status request with a 2xx response. *)
Lemma run_fetchIssues_payload_both_ok env owner repo filters (net : Network) r items r' :
  net (IssuesSlice.issues_request env owner repo filters) = Responded r ->
  ok r = true ->
  body r = IssuesBody items ->
  net (IssuesSlice.automation_request owner repo) = Responded r' ->
  ok r' = true ->
  run net (IssuesSlice.fetchIssues_payload env owner repo filters)
  = (Returned
       (match body r' with
        | AutomationBody m =>
            IssuesSlice.merge (default empty m) (IssuesSlice.without_pull_requests items)
        | NullBody | InvalidBody => IssuesSlice.without_pull_requests items
        | _ => IssuesSlice.merge empty (IssuesSlice.without_pull_requests items)
        end),
     [Sent (IssuesSlice.issues_request env owner repo filters);
      Sent (IssuesSlice.automation_request owner repo)]
     ++ match body r' with
        | NullBody =>
            [ConsoleWarn "Failed to fetch automation statuses:"
               (Some (TypeError "Cannot read properties of null"))]
        | InvalidBody =>
            [ConsoleWarn "Failed to fetch automation statuses:"
               (Some (SyntaxError "Unexpected token"))]
        | _ => []
        end).
Proof.
  intros Hnet Hok Hbody Hnet' Hok'. unfold IssuesSlice.fetchIssues_payload.
  rewrite run_bind, run_fetch, Hnet. cbn [fst snd]. rewrite Hok. cbn [negb].
  rewrite run_bind. unfold json. rewrite Hbody. cbn [run fst snd].
  rewrite run_bind. cbn [IssuesSlice.filter_data run fst snd].
  rewrite run_bind, run_try_catch, run_bind, run_fetch, Hnet'. cbn [fst snd].
  rewrite Hok'. rewrite run_bind.
  destruct (body r') as [items'|[m|]| | | | |]; reflexivity.
Qed.

(** X8. When both requests are answered with 2xx and the status body has an
    [automation_statuses] dictionary, the thunk is fulfilled with the
    filtered items merged with that dictionary; nothing is logged, and every
    stored issue has an [automation_status] property, either a status or
    [null]. *)
Theorem fetchIssues_stores_merged_issues
    env owner repo filters (net : Network) (r r' : Response)
    (items : list GitHubIssue.t) (m : gmap string AutomationStatus.t) (st : Store) :
  net (IssuesSlice.issues_request env owner repo filters) = Responded r ->
  ok r = true ->
  body r = IssuesBody items ->
  net (IssuesSlice.automation_request owner repo) = Responded r' ->
  ok r' = true ->
  body r' = AutomationBody (Some m) ->
  let merged := IssuesSlice.merge m (IssuesSlice.without_pull_requests items) in
  let out := run net (IssuesSlice.fetchIssues env owner repo filters) in
  out.2 = [Dispatched (IssuesA fetchIssues_pending);
           Sent (IssuesSlice.issues_request env owner repo filters);
           Sent (IssuesSlice.automation_request owner repo);
           Dispatched (IssuesA (fetchIssues_fulfilled merged))]
  /\ IssuesSlice.issues (issues_state (store_after st out.2)) = merged
  /\ Forall (fun issue => GitHubIssue.automation_status issue <> absent) merged.
Proof.
  intros Hnet Hok Hbody Hnet' Hok' Hbody' merged out.
  assert (out.2 = [Dispatched (IssuesA fetchIssues_pending);
                   Sent (IssuesSlice.issues_request env owner repo filters);
                   Sent (IssuesSlice.automation_request owner repo);
                   Dispatched (IssuesA (fetchIssues_fulfilled merged))]) as Hout.
  { unfold out, IssuesSlice.fetchIssues. rewrite run_createAsyncThunk.
    rewrite (run_fetchIssues_payload_both_ok _ _ _ _ _ r items r') by done.
    rewrite Hbody'. reflexivity. }
  rewrite Hout. split; [reflexivity|]. split; [reflexivity|].
  unfold merged, IssuesSlice.merge. apply Forall_map, Forall_forall.
  intros issue _. rewrite merge_one_status. by destruct (m !! _).
Qed.

(** X9. A 2xx status response whose body cannot be used does not fail the
    fetch.  When the body is not JSON or is [null], the filtered items are
    stored as they came and a warning is logged; when it is an object whose
    [automation_statuses] is missing or falsy, the merge runs with an empty
    dictionary and every stored issue gets [null]. *)
Theorem fetchIssues_tolerates_unusable_status_body
    env owner repo filters (net : Network) (r r' : Response)
    (items : list GitHubIssue.t) (st : Store) :
  net (IssuesSlice.issues_request env owner repo filters) = Responded r ->
  ok r = true ->
  body r = IssuesBody items ->
  net (IssuesSlice.automation_request owner repo) = Responded r' ->
  ok r' = true ->
  let issues := IssuesSlice.without_pull_requests items in
  let out := run net (IssuesSlice.fetchIssues env owner repo filters) in
  let stored := IssuesSlice.issues (issues_state (store_after st out.2)) in
  (body r' = InvalidBody \/ body r' = NullBody ->
     out.1 = Returned (Returned issues) /\ stored = issues
     /\ exists e, In (ConsoleWarn "Failed to fetch automation statuses:" (Some e)) out.2)
  /\ (body r' = AutomationBody None ->
      out.1 = Returned (Returned stored)
      /\ Forall2 same_but_automation_status issues stored
      /\ Forall (fun issue => GitHubIssue.automation_status issue = null) stored).
Proof.
  intros Hnet Hok Hbody Hnet' Hok' issues out stored.
  subst stored out. unfold IssuesSlice.fetchIssues, store_after.
  rewrite run_createAsyncThunk.
  rewrite (run_fetchIssues_payload_both_ok _ _ _ _ _ r items r') by done.
  assert (forall l : list GitHubIssue.t,
            Forall2 same_but_automation_status l (IssuesSlice.merge empty l)
            /\ Forall (fun issue => GitHubIssue.automation_status issue = null)
                 (IssuesSlice.merge empty l)) as Hempty.
  { intros l. unfold IssuesSlice.merge. split.
    - apply Forall2_fmap_r, Forall_Forall2_diag, Forall_forall.
      intros issue _. apply with_automation_status_frame.
    - apply Forall_map, Forall_forall. intros issue _. reflexivity. }
  split.
  - intros [-> | ->]; cbn [fst snd]; (split; [reflexivity|split; [reflexivity|]]);
      eexists; cbn; eauto 6.
  - intros ->; cbn [fst snd default]; (split; [reflexivity|]);
      apply (Hempty issues).
Qed.

Lemma fetchIssues_stores_merged_issues_witness :
  let net := Sample.both_up [Sample.issue 7; Sample.marked 8 (JsObject [])]
               (AutomationBody (Some Sample.statuses)) in
  let out := run net (IssuesSlice.fetchIssues Sample.env "octocat" "hello-world" None) in
  IssuesSlice.issues (issues_state (store_after (Sample.store []) out.2))
  = [GitHubIssue.with_automation_status (present Sample.running_status)
       (Sample.issue 7)].
Proof.
  intros net out.
  pose proof (fetchIssues_stores_merged_issues Sample.env "octocat" "hello-world"
                None net
                {| status := 200; statusText := "OK";
                   body := IssuesBody [Sample.issue 7; Sample.marked 8 (JsObject [])] |}
                {| status := 200; statusText := "OK";
                   body := AutomationBody (Some Sample.statuses) |}
                [Sample.issue 7; Sample.marked 8 (JsObject [])] Sample.statuses
                (Sample.store []) eq_refl eq_refl eq_refl eq_refl eq_refl eq_refl) as H.
  cbv zeta in H. destruct H as (_ & Hstore & _). exact Hstore.
Defined.

Lemma fetchIssues_tolerates_unusable_status_body_witness :
  (run (Sample.both_up [Sample.issue 7] NullBody)
       (IssuesSlice.fetchIssues Sample.env "octocat" "hello-world" None)).1
  = Returned (Returned [Sample.issue 7])
  /\ Forall (fun issue => GitHubIssue.automation_status issue = null)
       (IssuesSlice.issues
          (issues_state
             (store_after (Sample.store [])
                (run (Sample.both_up [Sample.issue 7] (AutomationBody None))
                     (IssuesSlice.fetchIssues Sample.env "octocat" "hello-world"
                        None)).2))).
Proof.
  split.
  - pose proof (fetchIssues_tolerates_unusable_status_body Sample.env "octocat"
                  "hello-world" None (Sample.both_up [Sample.issue 7] NullBody)
                  {| status := 200; statusText := "OK";
                     body := IssuesBody [Sample.issue 7] |}
                  {| status := 200; statusText := "OK"; body := NullBody |}
                  [Sample.issue 7] (Sample.store [])
                  eq_refl eq_refl eq_refl eq_refl eq_refl) as H.
    cbv zeta in H. destruct H as [H _].
    destruct (H (or_intror eq_refl)) as (Hres & _). exact Hres.
  - pose proof (fetchIssues_tolerates_unusable_status_body Sample.env "octocat"
                  "hello-world" None
                  (Sample.both_up [Sample.issue 7] (AutomationBody None))
                  {| status := 200; statusText := "OK";
                     body := IssuesBody [Sample.issue 7] |}
                  {| status := 200; statusText := "OK"; body := AutomationBody None |}
                  [Sample.issue 7] (Sample.store [])
                  eq_refl eq_refl eq_refl eq_refl eq_refl) as H.
    cbv zeta in H. destruct H as [_ H].
    destruct (H eq_refl) as (_ & _ & Hnull). exact Hnull.
Defined.

(* ===================================================================== *)
(** ** [retryAutomation] against any network                              *)
(* ===================================================================== *)

Lemma touches_only_status_of_refl n st : touches_only_status_of n st st.
Proof.
  unfold touches_only_status_of. repeat split; try done.
  intros i issue Hi. exists issue. by repeat split.
Qed.

(** X10. Against any network that settles the request, a dispatched
    [retryAutomation] makes exactly one request and leaves the repositories
    slice, the filters, the [loading] flag and the error of the issues slice
    as they were; at most the [automation_status] of one issue with the given
    number changes.  When the request gets no response the thunk is rejected
    and the store is unchanged. *)
Theorem retryAutomation_never_disturbs_the_rest
    (owner repo : string) (n : Z) (net : Network) (st : Store) :
  let req := IssuesSlice.retry_request owner repo n in
  let out := run net (IssuesSlice.retryAutomation owner repo n) in
  let st' := store_after st out.2 in
  requests out.2 = [req]
  /\ repositories_state st' = repositories_state st
  /\ touches_only_status_of n (issues_state st) (issues_state st')
  /\ (net req = NetworkFailure ->
      st' = st
      /\ exists e,
           out.1 = Returned (Thrown e)
           /\ dispatched out.2 = [IssuesA retryAutomation_pending;
                                  IssuesA (retryAutomation_rejected e)]).
Proof.
  intros req out st'. subst st' out. unfold IssuesSlice.retryAutomation.
  rewrite run_createAsyncThunk, run_retryAutomation_payload. fold req.
  cbn [fst snd]. unfold store_after.
  destruct (net req) as [r|]; [destruct (ok r)|]; cbn.
  - split; [reflexivity|]. split; [reflexivity|].
    split; [apply assign_touches_only_status_of|discriminate].
  - split; [reflexivity|]. split; [reflexivity|].
    split; [apply touches_only_status_of_refl|discriminate].
  - split; [reflexivity|]. split; [reflexivity|].
    split; [apply touches_only_status_of_refl|]. intros _.
    split; [by destruct st|]. by eexists.
Qed.

Lemma retryAutomation_never_disturbs_the_rest_witness :
  let st := Sample.store [Sample.issue 41; Sample.issue 42] in
  store_after st
    (run (fun _ => NetworkFailure)
         (IssuesSlice.retryAutomation "octocat" "hello-world" 42)).2 = st.
Proof.
  intros st.
  pose proof (retryAutomation_never_disturbs_the_rest "octocat" "hello-world" 42
                (fun _ => NetworkFailure) st) as H.
  cbv zeta in H. destruct H as (_ & _ & _ & H). destruct (H eq_refl) as [Hst _].
  exact Hst.
Defined.

(* ===================================================================== *)
(** ** Adding and removing repositories                                   *)
(* ===================================================================== *)

Lemma run_finally {A} net (p : Prog A) (f : Prog unit) :
  (run net f).1 = Returned tt ->
  run net (finally p f) = ((run net p).1, (run net p).2 ++ (run net f).2).
Proof.
  intros Hf. induction p as [a|e|req k IH|ev k IH]; simpl.
  - rewrite run_bind, Hf. cbn. by rewrite app_nil_r.
  - rewrite run_bind, Hf. cbn. by rewrite app_nil_r.
  - by rewrite IH.
  - by rewrite IH.
Qed.

Lemma console_not_dispatched log :
  forallb is_console log = true -> dispatched log = [] /\ requests log = [].
Proof.
  induction log as [|ev log IH]; [done|].
  intros [Hev Hlog]%andb_prop. destruct (IH Hlog) as [Hd Hr].
  by destruct ev.
Qed.

Lemma successful_or_not (o : Outcome) :
  (exists r repo, o = Responded r /\ ok r = true /\ body r = RepositoryCreated repo)
  \/ not_successful o.
Proof.
  destruct o as [r|]; [|by right].
  destruct (ok r) eqn:Hok; [|right; by left].
  destruct (body r) eqn:Hbody; try (right; right; congruence).
  left. eauto.
Qed.

Lemma run_addRepository_payload_created env u selected (net : Network) r repo :
  net (add_request env u selected) = Responded r ->
  ok r = true ->
  body r = RepositoryCreated repo ->
  run net (RepositorySlice.addRepository_payload env (DashboardPage.User.id u)
             (add_data selected))
  = (Returned repo, [Sent (add_request env u selected)]).
Proof.
  intros Hnet Hok Hbody. unfold RepositorySlice.addRepository_payload.
  rewrite run_bind. unfold RepositorySlice.api_post. cbn [run].
  fold (add_request env u selected). rewrite Hnet, Hok. cbn. by rewrite Hbody.
Qed.

Lemma run_addRepository_payload_failed env u selected (net : Network) :
  not_successful (net (add_request env u selected)) ->
  exists e log,
    run net (RepositorySlice.addRepository_payload env (DashboardPage.User.id u)
               (add_data selected))
    = (Thrown e, Sent (add_request env u selected) :: log)
    /\ forallb is_console log = true
    /\ (forall r m, net (add_request env u selected) = Responded r ->
          ok r = true -> body r = RepositoryRefused (Some m) -> m <> "" ->
          e = Error m).
Proof.
  intros Hfail. unfold RepositorySlice.addRepository_payload.
  rewrite run_bind. unfold RepositorySlice.api_post. cbn [run].
  fold (add_request env u selected).
  destruct (net (add_request env u selected)) as [r|]; simpl in Hfail.
  - destruct (ok r) eqn:Hok.
    + destruct Hfail as [?|Hbody]; [done|].
      destruct (body r) as [?|?|repo|msg| | |] eqn:Hb; cbn;
        try (eexists _, []; repeat split; [by intros ? ? [= <-]; rewrite Hb]; fail).
      * by destruct (Hbody repo).
      * eexists _, []. repeat split. intros r0 m [= <-] _ Hm Hne.
        rewrite Hb in Hm. injection Hm as ->.
        unfold or_default. cbn.
        apply truthy_string_nonempty in Hne. by rewrite Hne.
    + destruct (status r =? 401) eqn:E1; [|destruct (status r =? 500) eqn:E2]; cbn;
        eexists _, _; (split; [reflexivity|]); (split; [reflexivity|]);
        intros r0 m [= <-]; congruence.
  - cbn. eexists _, []. repeat split. intros; discriminate.
Qed.

(** The add handler for a candidate that is not in the list, in terms of
    what the payload creator does. *)
Lemma run_validateAndAddRepository_fresh env (net : Network) c selected u :
  DashboardPage.selectedRepoFromBrowser c = Some selected ->
  DashboardPage.user c = Some u ->
  Forall (fun r => Repository.full_name r <> DashboardPage.full_name selected)
    (DashboardPage.repositories c) ->
  let p := run net (RepositorySlice.addRepository_payload env
                      (DashboardPage.User.id u) (add_data selected)) in
  run net (DashboardPage.validateAndAddRepository env c)
  = (Returned tt,
     [SetIsValidating true; Dispatched (RepositoriesA addRepository_pending)]
     ++ p.2
     ++ match p.1 with
        | Returned repo =>
            [Dispatched (RepositoriesA (addRepository_fulfilled repo));
             ToastSuccess "Repository added successfully!";
             SetSelectedRepoFromBrowser_null; SetIsAddDialogOpen false;
             SetIsValidating false]
        | Thrown e =>
            [Dispatched (RepositoriesA (addRepository_rejected (serializeError e)));
             ConsoleError "Error adding repository:" (Some (serializeError e));
             ToastError "Failed to add repository"; SetIsValidating false]
        end).
Proof.
  intros Hsel Huser Hfresh p. unfold DashboardPage.validateAndAddRepository.
  rewrite Hsel, Huser.
  rewrite (proj2 (list_find_None _ (DashboardPage.repositories c)) Hfresh).
  rewrite run_bind. cbn [emit run fst snd].
  rewrite run_finally by reflexivity. rewrite run_try_catch, run_bind.
  unfold RepositorySlice.addRepository. rewrite run_createAsyncThunk.
  fold (add_data selected). fold p.
  destruct p as [[repo|e] tr]; cbn; by rewrite <- !app_assoc.
Qed.

(** X11. For a signed-in user and a picked repository whose full name is not
    in the list, when the backend answers 2xx with the created repository:
    the handler makes one POST to the create endpoint with the picked
    repository's data, the created repository is put at the head of the
    store's list, and the handler reports success, clears the pick, closes
    the dialog and resets the validating flag. *)
Theorem add_repository_succeeds
    env (net : Network) c selected u (r : Response) (created : Repository.t)
    (st : Store) :
  DashboardPage.selectedRepoFromBrowser c = Some selected ->
  DashboardPage.user c = Some u ->
  Forall (fun repo => Repository.full_name repo <> DashboardPage.full_name selected)
    (DashboardPage.repositories c) ->
  net (add_request env u selected) = Responded r ->
  ok r = true ->
  body r = RepositoryCreated created ->
  let out := run net (DashboardPage.validateAndAddRepository env c) in
  let st' := repositories_state (store_after st out.2) in
  out.2 = [SetIsValidating true;
           Dispatched (RepositoriesA addRepository_pending);
           Sent (add_request env u selected);
           Dispatched (RepositoriesA (addRepository_fulfilled created));
           ToastSuccess "Repository added successfully!";
           SetSelectedRepoFromBrowser_null; SetIsAddDialogOpen false;
           SetIsValidating false]
  /\ RepositorySlice.repositories st'
     = created :: RepositorySlice.repositories (repositories_state st)
  /\ RepositorySlice.selectedRepository st'
     = RepositorySlice.selectedRepository (repositories_state st)
  /\ RepositorySlice.loading st' = false
  /\ RepositorySlice.error st' = None.
Proof.
  intros Hsel Huser Hfresh Hnet Hok Hbody out st'. subst st' out.
  rewrite (run_validateAndAddRepository_fresh env net c selected u) by done.
  rewrite (run_addRepository_payload_created env u selected net r created) by done.
  repeat split.
Qed.

(** X12. For the same candidate, when the backend does not report success
    (no response, a non-2xx response, or a body without [success: true]):
    the store's list is unchanged and its error is set; the handler logs
    the error and shows the fixed message "Failed to add repository", never a
    success message; it leaves the pick and the dialog as they are and
    resets the validating flag.  A refusal message sent by the backend
    reaches the store's error, not the message shown. *)
Theorem add_repository_failure_is_contained
    env (net : Network) c selected u (st : Store) :
  DashboardPage.selectedRepoFromBrowser c = Some selected ->
  DashboardPage.user c = Some u ->
  Forall (fun repo => Repository.full_name repo <> DashboardPage.full_name selected)
    (DashboardPage.repositories c) ->
  not_successful (net (add_request env u selected)) ->
  let out := run net (DashboardPage.validateAndAddRepository env c) in
  let st' := repositories_state (store_after st out.2) in
  out.1 = Returned tt
  /\ requests out.2 = [add_request env u selected]
  /\ RepositorySlice.repositories st'
     = RepositorySlice.repositories (repositories_state st)
  /\ RepositorySlice.loading st' = false
  /\ RepositorySlice.error st' <> None
  /\ (exists before e,
        out.2 = before ++ [ConsoleError "Error adding repository:" (Some e);
                           ToastError "Failed to add repository";
                           SetIsValidating false])
  /\ Forall (fun ev => match ev with
                       | ToastSuccess _ | SetSelectedRepoFromBrowser_null
                       | SetIsAddDialogOpen _ => False
                       | _ => True
                       end) out.2
  /\ (forall r m, net (add_request env u selected) = Responded r ->
        ok r = true -> body r = RepositoryRefused (Some m) -> m <> "" ->
        RepositorySlice.error st' = Some m).
Proof.
  intros Hsel Huser Hfresh Hfail out st'. subst st' out.
  rewrite (run_validateAndAddRepository_fresh env net c selected u) by done.
  destruct (run_addRepository_payload_failed env u selected net Hfail)
    as (e & log & -> & Hlog & Hmsg).
  destruct (console_not_dispatched log Hlog) as [Hd Hr].
  cbn [fst snd app]. unfold store_after.
  change (dispatched (SetIsValidating true
                      :: Dispatched (RepositoriesA addRepository_pending)
                      :: Sent (add_request env u selected) :: ?l))
    with (RepositoriesA addRepository_pending :: dispatched l).
  change (requests (SetIsValidating true
                    :: Dispatched (RepositoriesA addRepository_pending)
                    :: Sent (add_request env u selected) :: ?l))
    with (add_request env u selected :: requests l).
  rewrite !dispatched_app, !requests_app, Hd, Hr.
  split; [reflexivity|]. split; [reflexivity|]. split; [reflexivity|].
  split; [reflexivity|]. split; [discriminate|]. split; [|split].
  - eexists (_ :: _ :: _ :: log ++ [_]), _. cbn. rewrite <- !app_assoc.
    reflexivity.
  - repeat (apply Forall_cons; split; [exact I|]).
    apply Forall_app. split; [|by repeat constructor].
    clear -Hlog. induction log as [|ev log IH]; [constructor|].
    apply andb_prop in Hlog as [Hev Hlog]. constructor; [by destruct ev|auto].
  - intros r m Hnet Hok Hbody Hne. rewrite (Hmsg r m Hnet Hok Hbody Hne).
    cbn. apply truthy_string_nonempty in Hne.
    unfold or_default. cbn. by rewrite Hne.
Qed.

Lemma add_repository_succeeds_witness :
  let out := run (Sample.answers_with 201 "Created" (RepositoryCreated Sample.spoon_knife))
               (DashboardPage.validateAndAddRepository Sample.env
                  Sample.dashboard_fresh_pick) in
  RepositorySlice.repositories
    (repositories_state (store_after (Sample.store_tracking [Sample.hello_world]) out.2))
  = [Sample.spoon_knife; Sample.hello_world]
  /\ requests out.2
     = [{| method := POST; url := "http://localhost:8000/repositories?user_id=u-1";
           headers := [("Content-Type", "application/json")];
           data := Some {| rd_name := "Spoon-Knife";
                           rd_full_name := "octocat/Spoon-Knife";
                           rd_description := None;
                           rd_url := "https://github.com/octocat/Spoon-Knife" |} |}].
Proof.
  intros out.
  pose proof (add_repository_succeeds Sample.env
                (Sample.answers_with 201 "Created" (RepositoryCreated Sample.spoon_knife))
                Sample.dashboard_fresh_pick Sample.picked_spoon_knife Sample.signed_in
                {| status := 201; statusText := "Created";
                   body := RepositoryCreated Sample.spoon_knife |}
                Sample.spoon_knife (Sample.store_tracking [Sample.hello_world])
                eq_refl eq_refl) as H.
  cbv zeta in H. destruct H as (Htrace & Hrepos & _); try reflexivity.
  { repeat constructor. discriminate. }
  split; [exact Hrepos|]. unfold out. rewrite Htrace. reflexivity.
Defined.

Lemma add_repository_failure_is_contained_witness :
  let out := run (Sample.answers_with 200 "OK"
                    (RepositoryRefused (Some "Repository limit reached")))
               (DashboardPage.validateAndAddRepository Sample.env
                  Sample.dashboard_fresh_pick) in
  let st' := repositories_state
               (store_after (Sample.store_tracking [Sample.hello_world]) out.2) in
  RepositorySlice.repositories st' = [Sample.hello_world]
  /\ RepositorySlice.error st' = Some "Repository limit reached".
Proof.
  intros out st'.
  pose proof (add_repository_failure_is_contained Sample.env
                (Sample.answers_with 200 "OK"
                   (RepositoryRefused (Some "Repository limit reached")))
                Sample.dashboard_fresh_pick Sample.picked_spoon_knife Sample.signed_in
                (Sample.store_tracking [Sample.hello_world])
                eq_refl eq_refl) as H.
  cbv zeta in H. destruct H as (_ & _ & Hrepos & _ & _ & _ & _ & Hmsg).
  { repeat constructor. discriminate. }
  { right. discriminate. }
  split; [exact Hrepos|].
  apply (Hmsg {| status := 200; statusText := "OK";
                 body := RepositoryRefused (Some "Repository limit reached") |}
              "Repository limit reached"); try reflexivity. discriminate.
Defined.

(** X13. Whatever its props, and against any network that settles the
    request, the add handler returns normally.  When no repository is picked,
    no user is signed in, or the picked full name is in the list, it makes
    no request and dispatches nothing.  When a repository is picked, a user
    is signed in and the picked full name is not in the list, it makes
    exactly the one create request and dispatches [pending] first.  Once a
    repository is picked and a user is signed in, the validating flag is
    raised first and lowered last. *)
Theorem add_handler_is_guarded env (net : Network) (c : DashboardPage.Props) :
  let out := run net (DashboardPage.validateAndAddRepository env c) in
  out.1 = Returned tt
  /\ (DashboardPage.selectedRepoFromBrowser c = None
      \/ DashboardPage.user c = None
      \/ (exists selected existing,
            DashboardPage.selectedRepoFromBrowser c = Some selected
            /\ In existing (DashboardPage.repositories c)
            /\ Repository.full_name existing = DashboardPage.full_name selected) ->
      requests out.2 = [] /\ dispatched out.2 = [])
  /\ (forall selected u,
        DashboardPage.selectedRepoFromBrowser c = Some selected ->
        DashboardPage.user c = Some u ->
        Forall (fun repo => Repository.full_name repo
                            <> DashboardPage.full_name selected)
          (DashboardPage.repositories c) ->
        requests out.2 = [add_request env u selected]
        /\ exists settled,
             dispatched out.2 = [RepositoriesA addRepository_pending; settled])
  /\ (forall selected u,
        DashboardPage.selectedRepoFromBrowser c = Some selected ->
        DashboardPage.user c = Some u ->
        exists mid, out.2 = SetIsValidating true :: mid ++ [SetIsValidating false]).
Proof.
  intros out. subst out.
  destruct (DashboardPage.selectedRepoFromBrowser c) as [selected|] eqn:Hsel.
  2:{ unfold DashboardPage.validateAndAddRepository. rewrite Hsel. cbn.
      split; [done|]. split; [done|]. split; intros; discriminate. }
  destruct (DashboardPage.user c) as [u|] eqn:Huser.
  2:{ unfold DashboardPage.validateAndAddRepository. rewrite Hsel, Huser. cbn.
      split; [done|]. split; [done|]. split; intros; discriminate. }
  destruct (list_find (fun r => Repository.full_name r = DashboardPage.full_name selected)
              (DashboardPage.repositories c)) as [[i found]|] eqn:Hfind.
  { pose proof Hfind as (Hi & Hname & _)%list_find_Some.
    unfold DashboardPage.validateAndAddRepository. rewrite Hsel, Huser, Hfind. cbn.
    split; [done|]. split; [done|]. split.
    - intros ? ? [= <-] _ Hfresh. exfalso. rewrite Forall_forall in Hfresh.
      apply (Hfresh found); [by eapply list_elem_of_lookup_2|exact Hname].
    - intros ? ? _ _. by eexists [_; _]. }
  apply list_find_None in Hfind.
  rewrite (run_validateAndAddRepository_fresh env net c selected u) by done.
  cbn [fst snd]. split; [reflexivity|]. split.
  { intros [[=]|[[=]|(selected' & existing & [= <-] & Hin & Hname)]]. exfalso.
    rewrite Forall_forall in Hfind.
    apply (Hfind existing); [by apply list_elem_of_In|exact Hname]. }
  destruct (successful_or_not (net (add_request env u selected)))
    as [(r & repo & Hnet & Hok & Hbody)|Hfail].
  - rewrite (run_addRepository_payload_created env u selected net r repo) by done.
    split.
    + intros ? ? [= <-] [= <-] _. split; [reflexivity|]. by eexists.
    + intros ? ? _ _. by eexists [_; _; _; _; _; _].
  - destruct (run_addRepository_payload_failed env u selected net Hfail)
      as (e & log & -> & Hlog & _).
    destruct (console_not_dispatched log Hlog) as [Hd Hr]. cbn [fst snd app].
    split.
    + intros ? ? [= <-] [= <-] _.
      change (requests (SetIsValidating true
                        :: Dispatched (RepositoriesA addRepository_pending)
                        :: Sent (add_request env u selected) :: ?l))
        with (add_request env u selected :: requests l).
      change (dispatched (SetIsValidating true
                          :: Dispatched (RepositoriesA addRepository_pending)
                          :: Sent (add_request env u selected) :: ?l))
        with (RepositoriesA addRepository_pending :: dispatched l).
      rewrite requests_app, dispatched_app, Hr, Hd. split; [reflexivity|].
      by eexists.
    + intros ? ? _ _. eexists (_ :: _ :: log ++ [_; _; _]).
      cbn. by rewrite <- !app_assoc.
Qed.

Lemma add_handler_is_guarded_witness :
  requests
    (run (Sample.answers 200 "OK")
         (DashboardPage.validateAndAddRepository Sample.env
            Sample.dashboard_fresh_pick)).2
  = [add_request Sample.env Sample.signed_in Sample.picked_spoon_knife]
  /\ requests
       (run (Sample.answers 200 "OK")
            (DashboardPage.validateAndAddRepository Sample.env
               (Sample.dashboard (Some Sample.signed_in)))).2
     = [].
Proof.
  split.
  - pose proof (add_handler_is_guarded Sample.env (Sample.answers 200 "OK")
                  Sample.dashboard_fresh_pick) as H.
    cbv zeta in H. destruct H as (_ & _ & H & _).
    destruct (H Sample.picked_spoon_knife Sample.signed_in eq_refl eq_refl)
      as [Hreq _]; [|exact Hreq].
    repeat constructor. discriminate.
  - pose proof (add_handler_is_guarded Sample.env (Sample.answers 200 "OK")
                  (Sample.dashboard (Some Sample.signed_in))) as H.
    cbv zeta in H. destruct H as (_ & H & _).
    destruct H as [Hreq _]; [|exact Hreq].
    right. right. exists Sample.picked_hello_world, Sample.hello_world.
    split; [reflexivity|]. split; [by left|reflexivity].
Defined.

Lemma filter_out_id_forall (l : list Repository.t) rid :
  Forall (fun repo => Repository.id repo <> rid)
    (List.filter (fun repo => negb (bool_decide (Repository.id repo = rid))) l).
Proof.
  apply Forall_forall. intros repo [_ H]%list_elem_of_In%filter_In.
  by apply negb_true_iff, bool_decide_eq_false in H.
Qed.

(** X14. A fulfilled delete removes every repository with that id and
    nothing else, keeping the order of the others; the selection is cleared
    when it had that id and kept otherwise; and deleting a repository that
    was just added, its id being new to the list, gives the list back. *)
Theorem delete_fulfilled_removes_by_id
    (st : RepositorySlice.RepositoryState) (rid : string) :
  let st' := RepositorySlice.reducer st (deleteRepository_fulfilled rid) in
  Forall (fun repo => Repository.id repo <> rid) (RepositorySlice.repositories st')
  /\ sublist (RepositorySlice.repositories st') (RepositorySlice.repositories st)
  /\ (forall repo, In repo (RepositorySlice.repositories st) ->
        Repository.id repo <> rid -> In repo (RepositorySlice.repositories st'))
  /\ (forall repo, RepositorySlice.selectedRepository st = Some repo ->
        Repository.id repo = rid -> RepositorySlice.selectedRepository st' = None)
  /\ (forall repo, RepositorySlice.selectedRepository st = Some repo ->
        Repository.id repo <> rid ->
        RepositorySlice.selectedRepository st' = Some repo)
  /\ (forall added,
        rid = Repository.id added ->
        Forall (fun repo => Repository.id repo <> rid) (RepositorySlice.repositories st) ->
        RepositorySlice.repositories
          (RepositorySlice.reducer
             (RepositorySlice.reducer st (addRepository_fulfilled added))
             (deleteRepository_fulfilled rid))
        = RepositorySlice.repositories st).
Proof.
  cbn zeta. cbn [RepositorySlice.reducer RepositorySlice.repositories
                 RepositorySlice.selectedRepository].
  assert (forall l : list Repository.t,
            Forall (fun repo => Repository.id repo <> rid) l ->
            List.filter (fun repo => negb (bool_decide (Repository.id repo = rid))) l = l)
    as Hid.
  { induction 1 as [|repo l Hrepo _ IH]; [reflexivity|]. cbn.
    rewrite bool_decide_eq_false_2 by done. cbn. by rewrite IH. }
  split; [|split; [|split; [|split; [|split]]]].
  - apply Forall_forall. intros repo [_ H]%list_elem_of_In%filter_In.
    by apply negb_true_iff, bool_decide_eq_false in H.
  - induction (RepositorySlice.repositories st) as [|repo l IH]; cbn; [constructor|].
    destruct (negb _); by constructor.
  - intros repo Hin Hne. apply filter_In. split; [exact Hin|].
    by rewrite bool_decide_eq_false_2.
  - intros repo -> Heq. cbn. by rewrite bool_decide_eq_true_2.
  - intros repo -> Hne. cbn. by rewrite bool_decide_eq_false_2.
  - intros added -> Hfresh. cbn. rewrite bool_decide_eq_true_2 by done. cbn.
    by apply Hid.
Qed.

Lemma delete_fulfilled_removes_by_id_witness :
  let st := repositories_state
              (Sample.store_tracking [Sample.spoon_knife; Sample.hello_world]) in
  let st' := RepositorySlice.reducer st (deleteRepository_fulfilled "r-2") in
  RepositorySlice.selectedRepository st' = None
  /\ In Sample.hello_world (RepositorySlice.repositories st').
Proof.
  intros st st'.
  pose proof (delete_fulfilled_removes_by_id st "r-2") as H. cbv zeta in H.
  destruct H as (_ & _ & Hkept & Hcleared & _).
  split.
  - apply (Hcleared Sample.spoon_knife); reflexivity.
  - apply Hkept; [right; left; reflexivity|discriminate].
Defined.

Lemma run_deleteRepository_payload_cases env rid uid (net : Network) :
  (exists r repo,
     net (delete_request env rid uid) = Responded r /\ ok r = true
     /\ body r = RepositoryCreated repo
     /\ run net (RepositorySlice.deleteRepository_payload env rid uid)
        = (Returned rid, [Sent (delete_request env rid uid)]))
  \/ (not_successful (net (delete_request env rid uid))
      /\ exists e log,
           run net (RepositorySlice.deleteRepository_payload env rid uid)
           = (Thrown e, Sent (delete_request env rid uid) :: log)
           /\ forallb is_console log = true).
Proof.
  unfold RepositorySlice.deleteRepository_payload.
  rewrite run_bind. unfold RepositorySlice.api_delete. cbn [run].
  fold (delete_request env rid uid).
  destruct (successful_or_not (net (delete_request env rid uid)))
    as [(r & repo & Hnet & Hok & Hbody)|Hfail].
  - left. exists r, repo.
    split; [exact Hnet|]. split; [exact Hok|]. split; [exact Hbody|].
    rewrite Hnet, Hok. cbn. by rewrite Hbody.
  - right. split; [exact Hfail|].
    destruct (net (delete_request env rid uid)) as [r|]; simpl in Hfail.
    + destruct (ok r) eqn:Hok.
      * destruct Hfail as [?|Hbody]; [done|].
        destruct (body r) as [?|?|repo|msg| | |] eqn:Hb; cbn;
          try (by eexists _, []).
        by destruct (Hbody repo).
      * destruct (status r =? 401) eqn:E1; [|destruct (status r =? 500) eqn:E2]; cbn;
          by eexists _, _.
    + cbn. by eexists _, [].
Qed.

(** The delete handler once confirmed by a signed-in user, in terms of what
    the payload creator does. *)
Lemma run_handleDeleteRepository_confirmed env (net : Network) c u rid rname :
  DashboardPage.user c = Some u ->
  let p := run net (RepositorySlice.deleteRepository_payload env rid
                      (DashboardPage.User.id u)) in
  run net (DashboardPage.handleDeleteRepository env c true rid rname)
  = (Returned tt,
     [Dispatched (RepositoriesA deleteRepository_pending)]
     ++ p.2
     ++ match p.1 with
        | Returned deleted =>
            [Dispatched (RepositoriesA (deleteRepository_fulfilled deleted));
             ToastSuccess "Repository removed successfully!"]
        | Thrown e =>
            [Dispatched (RepositoriesA (deleteRepository_rejected (serializeError e)));
             ConsoleError "Error deleting repository:" (Some (serializeError e));
             ToastError "Failed to remove repository"]
        end).
Proof.
  intros Huser p. unfold DashboardPage.handleDeleteRepository. rewrite Huser.
  cbn [negb]. rewrite run_try_catch, run_bind.
  unfold RepositorySlice.deleteRepository. rewrite run_createAsyncThunk. fold p.
  destruct p as [[deleted|e] tr]; cbn; by rewrite <- !app_assoc.
Qed.

(** X15. The delete handler returns normally and does nothing at all when
    the prompt is declined; without a signed-in user it only reports that.
    Otherwise it makes exactly one DELETE request: when the backend reports
    success no repository with that id is left in the store and success is
    reported; when it does not, the store's list and selection are unchanged,
    its error is set, and the fixed message "Failed to remove repository" is
    shown. *)
Theorem delete_handler_outcome
    env (net : Network) (c : DashboardPage.Props) (confirmed : bool)
    (rid rname : string) (st : Store) :
  let out := run net (DashboardPage.handleDeleteRepository env c confirmed rid rname) in
  let st' := repositories_state (store_after st out.2) in
  out.1 = Returned tt
  /\ (confirmed = false -> out.2 = [])
  /\ (confirmed = true -> DashboardPage.user c = None ->
      out.2 = [ToastError "User not authenticated"])
  /\ (forall u, confirmed = true -> DashboardPage.user c = Some u ->
        let req := delete_request env rid (DashboardPage.User.id u) in
        map (fun q => (method q, url q)) (requests out.2)
        = [(DELETE, RepositorySlice.API_BASE_URL env +:+ "/repositories/" +:+ rid
                    +:+ "?user_id=" +:+ DashboardPage.User.id u)]
        /\ ((exists r repo, net req = Responded r /\ ok r = true
                            /\ body r = RepositoryCreated repo) ->
            last out.2 = Some (ToastSuccess "Repository removed successfully!")
            /\ Forall (fun repo => Repository.id repo <> rid)
                 (RepositorySlice.repositories st')
            /\ RepositorySlice.error st' = None)
        /\ (not_successful (net req) ->
            last out.2 = Some (ToastError "Failed to remove repository")
            /\ RepositorySlice.repositories st'
               = RepositorySlice.repositories (repositories_state st)
            /\ RepositorySlice.selectedRepository st'
               = RepositorySlice.selectedRepository (repositories_state st)
            /\ RepositorySlice.error st' <> None)).
Proof.
  intros out st'. subst st' out.
  destruct confirmed.
  2:{ cbn. repeat split; try done. }
  destruct (DashboardPage.user c) as [u|] eqn:Huser.
  2:{ unfold DashboardPage.handleDeleteRepository. rewrite Huser. cbn.
      repeat split; try done. }
  rewrite (run_handleDeleteRepository_confirmed env net c u rid rname Huser).
  cbn [fst snd]. split; [done|]. split; [done|]. split; [done|].
  intros ? _ [= <-]. cbv zeta.
  destruct (run_deleteRepository_payload_cases env rid (DashboardPage.User.id u) net)
    as [(r & repo & Hnet & Hok & Hbody & ->)
       |(Hfail & e & log & -> & Hlog)].
  - cbn. split; [reflexivity|]. split.
    + intros _. split; [reflexivity|]. split; [|reflexivity].
      apply filter_out_id_forall.
    + intros Hno. exfalso. rewrite Hnet in Hno. simpl in Hno.
      destruct Hno as [?|Hno]; [congruence|]. by apply (Hno repo).
  - destruct (console_not_dispatched log Hlog) as [Hd Hr].
    cbn [fst snd app]. unfold store_after.
    change (dispatched (Dispatched (RepositoriesA deleteRepository_pending)
                        :: Sent ?q :: ?l))
      with (RepositoriesA deleteRepository_pending :: dispatched l).
    change (requests (Dispatched (RepositoriesA deleteRepository_pending)
                      :: Sent ?q :: ?l))
      with (q :: requests l).
    rewrite !dispatched_app, !requests_app, Hd, Hr.
    split; [reflexivity|]. split.
    + intros (r & repo & Hnet & Hok & Hbody). exfalso.
      rewrite Hnet in Hfail. simpl in Hfail.
      destruct Hfail as [?|Hno]; [congruence|]. by apply (Hno repo).
    + intros _. split; [|by repeat split].
      change [?a; ?b; ?d] with ([a; b] ++ [d]).
      rewrite !app_comm_cons, !app_assoc. apply last_snoc.
Qed.

Lemma delete_handler_outcome_witness :
  run (Sample.answers 200 "OK")
      (DashboardPage.handleDeleteRepository Sample.env Sample.dashboard_fresh_pick
         false "r-1" "hello-world")
  = (Returned tt, [])
  /\ Forall (fun repo => Repository.id repo <> "r-1")
       (RepositorySlice.repositories
          (repositories_state
             (store_after (Sample.store_tracking [Sample.hello_world])
                (run (Sample.answers_with 200 "OK" (RepositoryCreated Sample.hello_world))
                     (DashboardPage.handleDeleteRepository Sample.env
                        Sample.dashboard_fresh_pick true "r-1" "hello-world")).2))).
Proof.
  split.
  - pose proof (delete_handler_outcome Sample.env (Sample.answers 200 "OK")
                  Sample.dashboard_fresh_pick false "r-1" "hello-world"
                  (Sample.store_tracking [Sample.hello_world])) as H.
    cbv zeta in H. destruct H as (Hres & Hnone & _).
    apply injective_projections; [exact Hres|exact (Hnone eq_refl)].
  - pose proof (delete_handler_outcome Sample.env
                  (Sample.answers_with 200 "OK" (RepositoryCreated Sample.hello_world))
                  Sample.dashboard_fresh_pick true "r-1" "hello-world"
                  (Sample.store_tracking [Sample.hello_world])) as H.
    cbv zeta in H. destruct H as (_ & _ & _ & H).
    destruct (H Sample.signed_in eq_refl eq_refl) as (_ & Hok & _).
    destruct Hok as (_ & Hgone & _); [|exact Hgone].
    eexists _, Sample.hello_world. repeat split.
Defined.

(* ===================================================================== *)
(** ** Selecting a repository and loading its issues                      *)
(* ===================================================================== *)

Lemma split_no_sep sep (s : string) :
  ~ In sep (list_ascii_of_string s) -> IssuesPage.split sep s = [s].
Proof.
  induction s as [|c s IH]; [reflexivity|]. cbn. intros Hnot.
  destruct (Ascii.eqb_spec c sep) as [->|Hne]; [destruct Hnot; by left|].
  rewrite IH; [reflexivity|]. intros Hin. apply Hnot. by right.
Qed.

Lemma split_segment sep (a b : string) :
  ~ In sep (list_ascii_of_string a) ->
  IssuesPage.split sep (a +:+ String sep b) = a :: IssuesPage.split sep b.
Proof.
  induction a as [|c a IH]; intros Hnot.
  - rewrite append_nil_l. cbn. by rewrite Ascii.eqb_refl.
  - rewrite append_cons. cbn [IssuesPage.split].
    destruct (Ascii.eqb_spec c sep) as [->|Hne]; [destruct Hnot; by left|].
    rewrite IH; [reflexivity|]. intros Hin. apply Hnot. by right.
Qed.

Lemma split_nonempty sep (s : string) : IssuesPage.split sep s <> [].
Proof.
  destruct s as [|c s]; [discriminate|]. cbn.
  destruct (Ascii.eqb c sep); [discriminate|].
  by destruct (IssuesPage.split sep s).
Qed.

Lemma split_join sep (s : string) :
  String.concat (String sep EmptyString) (IssuesPage.split sep s) = s.
Proof.
  induction s as [|c s IH]; [reflexivity|]. cbn [IssuesPage.split].
  pose proof (split_nonempty sep s) as Hne.
  destruct (IssuesPage.split sep s) as [|seg segs]; [done|].
  destruct (Ascii.eqb_spec c sep) as [->|_].
  - change (String.concat (String sep "") ("" :: seg :: segs))
      with (String sep (String.concat (String sep "") (seg :: segs))).
    by rewrite IH.
  - destruct segs as [|seg' segs]; [cbn in *; by rewrite IH|].
    change (String.concat (String sep "") (String c seg :: seg' :: segs))
      with (String c (String.concat (String sep "") (seg :: seg' :: segs))).
    by rewrite IH.
Qed.

(** X16. Splitting a full name on the slash gives back the owner and the
    name it was built from when neither holds a slash; anything after a
    second slash is ignored; a full name without a slash gives the whole
    string as owner and no name; and joining the segments with slashes
    always gives the string back. *)
Theorem owner_and_repo_of_full_name (owner repo rest s : string) :
  (no_slash owner -> no_slash repo ->
     IssuesPage.owner_and_repo (owner +:+ "/" +:+ repo) = (Some owner, Some repo)
     /\ IssuesPage.owner_and_repo (owner +:+ "/" +:+ repo +:+ "/" +:+ rest)
        = (Some owner, Some repo))
  /\ (no_slash owner -> IssuesPage.owner_and_repo owner = (Some owner, None))
  /\ String.concat "/" (IssuesPage.split "/" s) = s.
Proof.
  unfold no_slash, IssuesPage.owner_and_repo.
  split; [|split; [|apply split_join]].
  - intros Ho Hr. split.
    + change ("/" +:+ repo) with (String "/" repo).
      rewrite split_segment by done. by rewrite split_no_sep.
    + change ("/" +:+ repo +:+ "/" +:+ rest) with (String "/" (repo +:+ String "/" rest)).
      rewrite split_segment by done. by rewrite split_segment.
  - intros Ho. by rewrite split_no_sep.
Qed.

Lemma owner_and_repo_of_full_name_witness :
  IssuesPage.owner_and_repo "octocat/hello-world" = (Some "octocat", Some "hello-world")
  /\ IssuesPage.owner_and_repo "octocat" = (Some "octocat", None).
Proof.
  destruct (owner_and_repo_of_full_name "octocat" "hello-world" "" "")
    as (Hpair & Hone & _).
  split.
  - apply Hpair; unfold no_slash; cbn; intuition discriminate.
  - apply Hone; unfold no_slash; cbn; intuition discriminate.
Defined.

Lemma run_unobserved {A} net (p : Prog A) :
  run net (IssuesPage.unobserved p) = (Returned tt, (run net p).2).
Proof.
  unfold IssuesPage.unobserved. rewrite run_try_catch, run_bind.
  destruct (run net p) as [[a|e] tr]; cbn; by rewrite app_nil_r.
Qed.


Lemma run_start_then_nothing {A} net (p : Prog A) :
  run net (IssuesPage.start_then p (Ret tt)) = (Returned tt, (run net p).2).
Proof.
  induction p as [a|e|req k IH|ev' k IH]; cbn [IssuesPage.start_then run].
  - reflexivity.
  - reflexivity.
  - cbn [bind]. by rewrite run_unobserved.
  - by rewrite IH.
Qed.

(** X17. The effect that loads the issues does, for a selected repository
    whose full name is an owner and a name joined by a slash, exactly what
    [fetchIssues] does for that owner, that name and the current criteria;
    for a full name without a slash it fetches for the name "undefined"; and
    with no repository selected it makes no request and empties the issue
    list. *)
Theorem syncIssues_follows_selection
    env (net : Network) (filters : Filters.t) (r : Repository.t)
    (owner repo : string) (st : Store) :
  (Repository.full_name r = owner +:+ "/" +:+ repo -> no_slash owner -> no_slash repo ->
     run net (IssuesPage.syncIssues env (Some r) filters)
     = (Returned tt,
        (run net (IssuesSlice.fetchIssues env owner repo
                    (Some (Filters.full filters)))).2))
  /\ (Repository.full_name r = owner -> no_slash owner ->
      run net (IssuesPage.syncIssues env (Some r) filters)
      = (Returned tt,
         (run net (IssuesSlice.fetchIssues env owner "undefined"
                     (Some (Filters.full filters)))).2))
  /\ (let out := run net (IssuesPage.syncIssues env None filters) in
      requests out.2 = []
      /\ IssuesSlice.issues (issues_state (store_after st out.2)) = []
      /\ IssuesSlice.filters (issues_state (store_after st out.2))
         = IssuesSlice.filters (issues_state st)).
Proof.
  split; [|split; [|by repeat split]].
  - intros Hname Ho Hr. unfold IssuesPage.syncIssues. rewrite Hname.
    change ("/" +:+ repo) with (String "/" repo).
    unfold IssuesPage.owner_and_repo.
    rewrite split_segment, split_no_sep by done. cbn [lookup list_lookup fst snd].
    apply run_start_then_nothing.
  - intros Hname Ho. unfold IssuesPage.syncIssues, IssuesPage.owner_and_repo.
    rewrite Hname, split_no_sep by done. apply run_start_then_nothing.
Qed.

Lemma syncIssues_follows_selection_witness :
  run (Sample.backend_down [Sample.issue 1])
      (IssuesPage.syncIssues Sample.env (Some Sample.hello_world) Sample.open_filters)
  = (Returned tt,
     (run (Sample.backend_down [Sample.issue 1])
          (IssuesSlice.fetchIssues Sample.env "octocat" "hello-world"
             (Some (Filters.full Sample.open_filters)))).2).
Proof.
  destruct (syncIssues_follows_selection Sample.env
              (Sample.backend_down [Sample.issue 1]) Sample.open_filters
              Sample.hello_world "octocat" "hello-world" (Sample.store []))
    as (H & _).
  apply H; [reflexivity| |]; unfold no_slash; cbn; intuition discriminate.
Defined.

(** X18. Choosing a repository in the navigation bar selects the first
    repository of the list with that id.  An id that no repository has
    clears the selection, and the issues page then empties the issue list
    without any request. *)
Theorem repository_change_selects_by_id
    env (net : Network) (repositories : list Repository.t) (rid : string) (st : Store) :
  let tr := (run net (Navbar.handleRepositoryChange repositories rid)).2 in
  let st1 := store_after st tr in
  let selected := RepositorySlice.selectedRepository (repositories_state st1) in
  requests tr = []
  /\ RepositorySlice.repositories (repositories_state st1)
     = RepositorySlice.repositories (repositories_state st)
  /\ issues_state st1 = issues_state st
  /\ (forall i repo, repositories !! i = Some repo -> Repository.id repo = rid ->
        (forall j other, repositories !! j = Some other -> (j < i)%nat ->
           Repository.id other <> rid) ->
        selected = Some repo)
  /\ (Forall (fun repo => Repository.id repo <> rid) repositories ->
      selected = None
      /\ let tr2 := (run net (IssuesPage.syncIssues env selected
                                (IssuesSlice.filters (issues_state st1)))).2 in
         requests tr2 = []
         /\ IssuesSlice.issues (issues_state (store_after st1 tr2)) = []).
Proof.
  cbv zeta. unfold Navbar.handleRepositoryChange. cbn.
  split; [reflexivity|]. split; [reflexivity|]. split; [reflexivity|]. split.
  - intros i repo Hi Hid Hfirst.
    assert (list_find (fun repo => Repository.id repo = rid) repositories
            = Some (i, repo)) as ->; [|reflexivity].
    apply list_find_Some. split; [exact Hi|]. split; [exact Hid|].
    intros j other Hj Hlt. by apply (Hfirst j other).
  - intros Hnone. rewrite (proj2 (list_find_None _ repositories) Hnone).
    by repeat split.
Qed.

Lemma repository_change_selects_by_id_witness :
  RepositorySlice.selectedRepository
    (repositories_state
       (store_after (Sample.store_tracking [Sample.hello_world; Sample.spoon_knife])
          (run (Sample.answers 200 "OK")
               (Navbar.handleRepositoryChange [Sample.hello_world; Sample.spoon_knife]
                  "r-2")).2))
  = Some Sample.spoon_knife
  /\ RepositorySlice.selectedRepository
       (repositories_state
          (store_after (Sample.store_tracking [Sample.hello_world; Sample.spoon_knife])
             (run (Sample.answers 200 "OK")
                  (Navbar.handleRepositoryChange
                     [Sample.hello_world; Sample.spoon_knife] "r-9")).2))
     = None.
Proof.
  split.
  - pose proof (repository_change_selects_by_id Sample.env (Sample.answers 200 "OK")
                  [Sample.hello_world; Sample.spoon_knife] "r-2"
                  (Sample.store_tracking [Sample.hello_world; Sample.spoon_knife])) as H.
    cbv zeta in H. destruct H as (_ & _ & _ & H & _).
    apply (H 1%nat Sample.spoon_knife eq_refl eq_refl).
    intros j other Hj Hlt. destruct j as [|j]; [|lia]. by inversion Hj.
  - pose proof (repository_change_selects_by_id Sample.env (Sample.answers 200 "OK")
                  [Sample.hello_world; Sample.spoon_knife] "r-9"
                  (Sample.store_tracking [Sample.hello_world; Sample.spoon_knife])) as H.
    cbv zeta in H. destruct H as (_ & _ & _ & _ & H).
    destruct H as [H _]; [|exact H]. repeat constructor; discriminate.
Defined.




(* ===================================================================== *)
(** ** The client-side search                                             *)
(* ===================================================================== *)

Lemma matches_ignores_status toLowerCase q s issue :
  IssuesPage.matches toLowerCase q (GitHubIssue.with_automation_status s issue)
  = IssuesPage.matches toLowerCase q issue.
Proof. reflexivity. Qed.

(** X20. The search keeps every issue for the empty query; otherwise it
    keeps, in order, exactly the issues whose lower-cased title or body
    contains the lower-cased query, an issue without body being judged on
    its title alone; two queries with the same lower-casing keep the same
    issues; and searching commutes with the status merge, so a search never
    depends on automation statuses. *)
Theorem search_is_case_insensitive_and_ignores_status
    (toLowerCase : string -> string) (q q' : string)
    (m : gmap string AutomationStatus.t) (issues : list GitHubIssue.t) :
  IssuesPage.filteredIssues toLowerCase "" issues = issues
  /\ sublist (IssuesPage.filteredIssues toLowerCase q issues) issues
  /\ (q <> "" ->
      forall issue, In issue (IssuesPage.filteredIssues toLowerCase q issues) <->
        In issue issues
        /\ (includes (toLowerCase (GitHubIssue.title issue)) (toLowerCase q) = true
            \/ exists b, GitHubIssue.body issue = Some b
                         /\ includes (toLowerCase b) (toLowerCase q) = true))
  /\ (q <> "" -> q' <> "" -> toLowerCase q = toLowerCase q' ->
      IssuesPage.filteredIssues toLowerCase q issues
      = IssuesPage.filteredIssues toLowerCase q' issues)
  /\ IssuesPage.filteredIssues toLowerCase q (IssuesSlice.merge m issues)
     = IssuesSlice.merge m (IssuesPage.filteredIssues toLowerCase q issues).
Proof.
  unfold IssuesPage.filteredIssues.
  split; [|split; [|split; [|split]]].
  - induction issues as [|issue issues IH]; [reflexivity|]. cbn. by rewrite IH.
  - induction issues as [|issue issues IH]; cbn; [constructor|].
    destruct (IssuesPage.matches _ _ _); by constructor.
  - intros Hq issue. rewrite filter_In. unfold IssuesPage.matches.
    rewrite bool_decide_eq_false_2 by done. cbn [orb].
    rewrite orb_true_iff.
    split; intros [Hin Hm]; (split; [exact Hin|]); destruct Hm as [Hm|Hm]; auto.
    + destruct (GitHubIssue.body issue) as [b|]; [|discriminate]. right. eauto.
    + destruct Hm as (b & -> & Hm). by right.
  - intros Hq Hq' Hsame. apply filter_ext. intros issue. unfold IssuesPage.matches.
    by rewrite !bool_decide_eq_false_2, Hsame by done.
  - induction issues as [|issue issues IH]; [reflexivity|].
    unfold IssuesSlice.merge in *. cbn [map List.filter].
    unfold IssuesSlice.merge_one at 1. rewrite matches_ignores_status, IH.
    by destruct (IssuesPage.matches _ _ _).
Qed.

Lemma search_is_case_insensitive_and_ignores_status_witness :
  IssuesPage.filteredIssues Sample.lower "BROKEN" [Sample.issue 1; Sample.issue 2]
  = IssuesPage.filteredIssues Sample.lower "Broken" [Sample.issue 1; Sample.issue 2]
  /\ In (Sample.issue 2)
       (IssuesPage.filteredIssues Sample.lower "BROKEN" [Sample.issue 1; Sample.issue 2]).
Proof.
  destruct (search_is_case_insensitive_and_ignores_status Sample.lower
              "BROKEN" "Broken" Sample.statuses [Sample.issue 1; Sample.issue 2])
    as (_ & _ & Hin & Hsame & _).
  split.
  - apply Hsame; [discriminate|discriminate|reflexivity].
  - apply Hin; [discriminate|]. split; [right; left; reflexivity|].
    left. reflexivity.
Defined.

(* ===================================================================== *)
(** ** The status badge after a merge and after a retry                   *)
(* ===================================================================== *)

(** X21. On an issue card (retry button enabled, handler passed) the retry
    button is rendered exactly for a failed status, and the badge reads "No
    automation" exactly when there is no status or its state is null.  After
    a merge an issue without entry in the mapping reads "No automation" and
    has no retry button; after a fulfilled retry the issue that was marked
    reads "Pending" and has no retry button. *)
Theorem badge_follows_status
    (status : nullable AutomationStatus.t) (m : gmap string AutomationStatus.t)
    (issue : GitHubIssue.t) (st : IssuesSlice.IssuesState) (n : Z) (label : string) :
  (AutomationStatusBadge.retry_button status true true = true <->
     exists s, status = present s
               /\ AutomationStatus.status s = Some AutomationStatus.failed)
  /\ (AutomationStatusBadge.text status = "No automation" <->
        status = absent \/ status = null
        \/ exists s, status = present s /\ AutomationStatus.status s = None)
  /\ (m !! toString (GitHubIssue.number issue) = None ->
      let merged := GitHubIssue.automation_status (IssuesSlice.merge_one m issue) in
      AutomationStatusBadge.text merged = "No automation"
      /\ AutomationStatusBadge.retry_button merged true true = false)
  /\ (forall i found,
        IssuesSlice.issues st !! i = Some found ->
        GitHubIssue.number found = n ->
        (forall j other, IssuesSlice.issues st !! j = Some other -> (j < i)%nat ->
           GitHubIssue.number other <> n) ->
        exists marked,
          IssuesSlice.issues (IssuesSlice.reducer st (retryAutomation_fulfilled n label))
            !! i = Some marked
          /\ AutomationStatusBadge.text (GitHubIssue.automation_status marked) = "Pending"
          /\ AutomationStatusBadge.retry_button
               (GitHubIssue.automation_status marked) true true = false).
Proof.
  split; [|split; [|split]].
  - destruct status as [| |[[[]|] ? ? ? ?]]; cbn; split;
      try discriminate; try (intros (s & [=] & ?); subst; discriminate);
      try (intros (s & ? & ?); discriminate); eauto.
  - destruct status as [| |[[[]|] ? ? ? ?]]; cbn; split; auto;
      try discriminate;
      try (intros [?|[?|(s & [=] & ?)]]; subst; discriminate); eauto 6.
  - intros Hnone. cbv zeta. rewrite merge_one_status, Hnone. by split.
  - intros i found Hi Hn Hfirst. eexists. split.
    + cbn [IssuesSlice.reducer IssuesSlice.issues].
      by apply assign_automation_status_first.
    + by split.
Qed.

Lemma badge_follows_status_witness :
  AutomationStatusBadge.text
    (GitHubIssue.automation_status (IssuesSlice.merge_one Sample.statuses (Sample.issue 8)))
  = "No automation"
  /\ exists marked,
       IssuesSlice.issues
         (IssuesSlice.reducer (issues_state (Sample.store [Sample.issue 8]))
            (retryAutomation_fulfilled 8 "pending")) !! 0%nat = Some marked
       /\ AutomationStatusBadge.text (GitHubIssue.automation_status marked) = "Pending".
Proof.
  destruct (badge_follows_status null Sample.statuses (Sample.issue 8)
              (issues_state (Sample.store [Sample.issue 8])) 8 "pending")
    as (_ & _ & Hmerge & Hretry).
  split.
  - apply Hmerge. reflexivity.
  - destruct (Hretry 0%nat (Sample.issue 8) eq_refl eq_refl)
      as (marked & H1 & H2 & _); [intros; lia|].
    exists marked. by split.
Defined.

(* ===================================================================== *)
(** ** The in-memory repository service                                   *)
(* ===================================================================== *)

Lemma ids_unique_call st c :
  ids_unique st -> MockRepositoryService.nextId st < 2 ^ 53 ->
  ids_unique (MockRepositoryService.call st c).
Proof.
  intros (Hnodup & Hrange & Hpos) Hbelow.
  destruct c as [created updated uid d|rid]; cbn.
  - unfold MockRepositoryService.incremented.
    rewrite (proj2 (Z.ltb_lt _ _) Hbelow).
    split; [|split]; cbn; [| |lia].
    + rewrite map_app. cbn. apply NoDup_app. split; [exact Hnodup|].
      split; [|apply NoDup_singleton].
      intros x Hx ->%list_elem_of_singleton.
      apply list_elem_of_fmap in Hx as (repo & Hid & Hin).
      rewrite Forall_forall in Hrange. destruct (Hrange repo Hin) as (k & Hk & Hrepo).
      rewrite Hrepo in Hid. unfold toString in Hid. apply (inj pretty) in Hid. lia.
    + apply Forall_app. split.
      * eapply Forall_impl; [exact Hrange|]. intros repo (k & Hk & Hrepo).
        exists k. split; [lia|exact Hrepo].
      * constructor; [|constructor].
        exists (MockRepositoryService.nextId st). split; [lia|reflexivity].
  - unfold MockRepositoryService.deleteRepository.
    destruct (list_find _ _) as [[index found]|]; [|by repeat split].
    pose proof (sublist_delete (MockRepositoryService.mockRepositories st) index)
      as Hsub.
    split; [|split]; cbn; [| |exact Hpos].
    + eapply sublist_NoDup; [exact Hnodup|]. by apply fmap_sublist.
    + rewrite Forall_forall in *. intros repo Hin. apply Hrange.
      by eapply elem_of_sublist.
Qed.

Lemma adds_cons c calls :
  adds (c :: calls)
  = match c with
    | MockRepositoryService.Add _ _ _ _ => S (adds calls)
    | MockRepositoryService.Delete _ => adds calls
    end.
Proof. by destruct c. Qed.

(** While the counter stays within 2^53, every call keeps the ids distinct
    and every addition moves the counter by one. *)
Lemma ids_unique_calls calls st :
  ids_unique st ->
  MockRepositoryService.nextId st + Z.of_nat (adds calls) <= 2 ^ 53 ->
  ids_unique (fold_left MockRepositoryService.call calls st)
  /\ MockRepositoryService.nextId (fold_left MockRepositoryService.call calls st)
     = MockRepositoryService.nextId st + Z.of_nat (adds calls).
Proof.
  revert st. induction calls as [|c calls IH]; intros st Hst Hbound.
  - cbn. split; [exact Hst|lia].
  - cbn [fold_left]. rewrite adds_cons in *.
    destruct c as [created updated uid d|rid].
    + assert (MockRepositoryService.nextId st < 2 ^ 53) as Hbelow by lia.
      destruct (IH (MockRepositoryService.call st
                      (MockRepositoryService.Add created updated uid d)))
        as [Hinv Hnext].
      * by apply ids_unique_call.
      * cbn. unfold MockRepositoryService.incremented.
        rewrite (proj2 (Z.ltb_lt _ _) Hbelow). lia.
      * split; [exact Hinv|]. rewrite Hnext. cbn.
        unfold MockRepositoryService.incremented.
        rewrite (proj2 (Z.ltb_lt _ _) Hbelow). lia.
    + assert (MockRepositoryService.nextId
                (MockRepositoryService.call st (MockRepositoryService.Delete rid))
              = MockRepositoryService.nextId st) as Hsame.
      { cbn. unfold MockRepositoryService.deleteRepository.
        by destruct (list_find _ _) as [[index found]|]. }
      destruct (IH (MockRepositoryService.call st (MockRepositoryService.Delete rid)))
        as [Hinv Hnext].
      * destruct Hst as (Hnodup & Hrange & Hpos).
        unfold MockRepositoryService.call, MockRepositoryService.deleteRepository.
        destruct (list_find _ _) as [[index found]|]; [|by repeat split].
        pose proof (sublist_delete (MockRepositoryService.mockRepositories st) index)
          as Hsub.
        split; [|split]; cbn; [| |exact Hpos].
        -- eapply sublist_NoDup; [exact Hnodup|]. by apply fmap_sublist.
        -- rewrite Forall_forall in *. intros repo Hin. apply Hrange.
           by eapply elem_of_sublist.
      * rewrite Hsame. lia.
      * split; [exact Hinv|]. rewrite Hnext, Hsame. lia.
Qed.

(** X22. As long as the service has served fewer than 2^53 additions since it
    was loaded, whatever deletions came in between: no two stored
    repositories share an id, every stored id is the decimal text of a number
    handed out before, and the next id is one more than the number of
    additions, so an id is not reused, not even after a deletion.  Once the
    counter has reached 2^53 it no longer moves, and every further addition
    gets the id 9007199254740992. *)
Theorem mock_ids_are_unique_until_the_counter_saturates
    (calls : list MockRepositoryService.Call) (saturated : MockRepositoryService.State)
    (created updated userId created' updated' userId' : string)
    (repoData repoData' : RepoData) :
  (Z.of_nat (adds calls) < 2 ^ 53 ->
   let st := fold_left MockRepositoryService.call calls MockRepositoryService.initial in
   NoDup (map Repository.id (MockRepositoryService.mockRepositories st))
   /\ Forall (fun repo => exists k, 1 <= k < MockRepositoryService.nextId st
                                    /\ Repository.id repo = toString k)
        (MockRepositoryService.mockRepositories st)
   /\ MockRepositoryService.nextId st = 1 + Z.of_nat (adds calls))
  /\ (MockRepositoryService.nextId saturated = 2 ^ 53 ->
      let first := MockRepositoryService.addRepository saturated created updated
                     userId repoData in
      let second := MockRepositoryService.addRepository first.1 created' updated'
                      userId' repoData' in
      Repository.id first.2 = "9007199254740992"
      /\ Repository.id second.2 = "9007199254740992"
      /\ MockRepositoryService.nextId second.1 = 2 ^ 53).
Proof.
  split.
  - intros Hbound. cbv zeta.
    destruct (ids_unique_calls calls MockRepositoryService.initial)
      as ((Hnodup & Hrange & _) & Hnext).
    + split; [constructor|]. split; [constructor|]. cbn. lia.
    + cbn [MockRepositoryService.initial MockRepositoryService.nextId]. lia.
    + split; [exact Hnodup|]. split; [exact Hrange|exact Hnext].
  - intros Hsat. cbv zeta. cbn. rewrite Hsat.
    by repeat split.
Qed.

Lemma mock_ids_are_unique_until_the_counter_saturates_witness :
  let calls := [MockRepositoryService.Add "t0" "t0" "u-1" Sample.spoon_knife_data;
                MockRepositoryService.Delete "1";
                MockRepositoryService.Add "t1" "t1" "u-2" Sample.spoon_knife_data] in
  let st := fold_left MockRepositoryService.call calls MockRepositoryService.initial in
  MockRepositoryService.nextId st = 3
  /\ map Repository.id (MockRepositoryService.mockRepositories st) = ["2"].
Proof.
  intros calls st.
  destruct (mock_ids_are_unique_until_the_counter_saturates calls
              MockRepositoryService.initial "" "" "" "" "" ""
              Sample.spoon_knife_data Sample.spoon_knife_data) as [H _].
  destruct H as (_ & _ & Hnext); [cbn; lia|].
  split; [exact Hnext|reflexivity].
Defined.

(** X23. Adding stores the new repository last, under the next id and the
    given user, with an empty description stored as null; what the user
    fetches afterwards is what was fetched before followed by the new
    repository, and what any other user fetches is unchanged.  The full name
    is not compared with the stored ones: the list always grows by one. *)
Theorem mock_add_is_visible_to_its_user_only
    (st : MockRepositoryService.State) (created updated userId : string)
    (repoData : RepoData) :
  let added := MockRepositoryService.addRepository st created updated userId repoData in
  MockRepositoryService.mockRepositories added.1
    = MockRepositoryService.mockRepositories st ++ [added.2]
  /\ Repository.id added.2 = toString (MockRepositoryService.nextId st)
  /\ Repository.user_id added.2 = userId
  /\ Repository.full_name added.2 = rd_full_name repoData
  /\ (rd_description repoData = Some "" \/ rd_description repoData = None ->
      Repository.description added.2 = None)
  /\ MockRepositoryService.fetchRepositories added.1 userId
     = MockRepositoryService.fetchRepositories st userId ++ [added.2]
  /\ (forall other, other <> userId ->
        MockRepositoryService.fetchRepositories added.1 other
        = MockRepositoryService.fetchRepositories st other).
Proof.
  cbv zeta. unfold MockRepositoryService.fetchRepositories,
    MockRepositoryService.addRepository.
  cbn [fst snd MockRepositoryService.mockRepositories Repository.id
       Repository.user_id Repository.full_name Repository.description].
  split; [reflexivity|]. split; [reflexivity|]. split; [reflexivity|].
  split; [reflexivity|]. split; [by intros [-> | ->]|].
  rewrite !List.filter_app. cbn [List.filter Repository.user_id]. split.
  - by rewrite bool_decide_eq_true_2.
  - intros other Hne. rewrite List.filter_app. cbn [List.filter Repository.user_id].
    rewrite bool_decide_eq_false_2 by done. apply app_nil_r.
Qed.

Lemma mock_add_is_visible_to_its_user_only_witness :
  let added := MockRepositoryService.addRepository MockRepositoryService.initial
                 "2024-02-01T00:00:00Z" "2024-02-01T00:00:00Z" "u-1"
                 Sample.spoon_knife_data in
  Repository.description added.2 = None
  /\ MockRepositoryService.fetchRepositories added.1 "u-2" = [].
Proof.
  intros added.
  pose proof (mock_add_is_visible_to_its_user_only MockRepositoryService.initial
                "2024-02-01T00:00:00Z" "2024-02-01T00:00:00Z" "u-1"
                Sample.spoon_knife_data) as H.
  cbv zeta in H. destruct H as (_ & _ & _ & _ & Hdesc & _ & Hother).
  split; [apply Hdesc; by left|]. apply Hother. discriminate.
Defined.

Lemma fetched_without_id rid userId (l : list Repository.t) :
  Forall (fun repo => Repository.id repo <> rid) l ->
  List.filter (fun repo => negb (bool_decide (Repository.id repo = rid)))
    (List.filter (fun repo => bool_decide (Repository.user_id repo = userId)) l)
  = List.filter (fun repo => bool_decide (Repository.user_id repo = userId)) l.
Proof.
  induction 1 as [|repo l Hrepo _ IH]; [reflexivity|]. cbn.
  destruct (bool_decide (Repository.user_id repo = userId)); [|exact IH].
  cbn. rewrite bool_decide_eq_false_2 by done. cbn. by rewrite IH.
Qed.

(** X24. Deleting takes out the first stored repository with the given id
    and nothing else, whoever owns it: when the store is some repositories
    without that id, then one with it, then the rest, what is left is the
    former followed by the rest, later repositories with the same id
    included.  An id that is not stored changes nothing; the next id is
    kept.  When the stored ids are distinct, no repository with that id is
    left, and every user then fetches what was fetched before without the
    repository of that id. *)
Theorem mock_delete_removes_one_by_id
    (st : MockRepositoryService.State) (rid : string) :
  let st' := MockRepositoryService.deleteRepository st rid in
  MockRepositoryService.nextId st' = MockRepositoryService.nextId st
  /\ (forall before found rest,
        MockRepositoryService.mockRepositories st = before ++ found :: rest ->
        Forall (fun repo => Repository.id repo <> rid) before ->
        Repository.id found = rid ->
        MockRepositoryService.mockRepositories st' = before ++ rest)
  /\ sublist (MockRepositoryService.mockRepositories st')
       (MockRepositoryService.mockRepositories st)
  /\ (Forall (fun repo => Repository.id repo <> rid)
        (MockRepositoryService.mockRepositories st) -> st' = st)
  /\ (Exists (fun repo => Repository.id repo = rid)
        (MockRepositoryService.mockRepositories st) ->
      S (length (MockRepositoryService.mockRepositories st'))
      = length (MockRepositoryService.mockRepositories st))
  /\ (forall repo, In repo (MockRepositoryService.mockRepositories st) ->
        Repository.id repo <> rid ->
        In repo (MockRepositoryService.mockRepositories st'))
  /\ (NoDup (map Repository.id (MockRepositoryService.mockRepositories st)) ->
      Forall (fun repo => Repository.id repo <> rid)
        (MockRepositoryService.mockRepositories st')
      /\ forall userId,
           MockRepositoryService.fetchRepositories st' userId
           = List.filter (fun repo => negb (bool_decide (Repository.id repo = rid)))
               (MockRepositoryService.fetchRepositories st userId)).
Proof.
  cbv zeta. unfold MockRepositoryService.deleteRepository.
  destruct (list_find _ _) as [[index found]|] eqn:Hfind.
  - apply list_find_Some in Hfind as (Hi & Hid & Hfirst).
    apply list_elem_of_split_length in Hi as (l1 & l2 & Hl & Hlen).
    rewrite Hl, Hlen. cbn. rewrite delete_middle.
    assert (Forall (fun repo => Repository.id repo <> rid) l1) as Hl1.
    { apply Forall_lookup. intros j other Hj. apply (Hfirst j other).
      - rewrite Hl. by apply lookup_app_l_Some.
      - apply lookup_lt_Some in Hj. lia. }
    split; [reflexivity|]. split; [|split; [|split; [|split; [|split]]]].
    + intros before found' rest Hsplit Hbefore Hfound.
      assert (length before = length l1) as Hsame.
      { destruct (Nat.lt_total (length before) (length l1)) as [Hlt|[Heq|Hgt]];
          [|exact Heq|]; exfalso.
        - rewrite Forall_lookup in Hl1.
          apply (Hl1 (length before) found'); [|exact Hfound].
          assert ((l1 ++ found :: l2) !! length before = Some found') as Hlook
            by (rewrite Hsplit; apply list_lookup_middle; reflexivity).
          by rewrite lookup_app_l in Hlook.
        - rewrite Forall_lookup in Hbefore.
          apply (Hbefore (length l1) found); [|exact Hid].
          assert ((before ++ found' :: rest) !! length l1 = Some found) as Hlook
            by (rewrite <- Hsplit; apply list_lookup_middle; reflexivity).
          by rewrite lookup_app_l in Hlook. }
      apply app_inj_1 in Hsplit as [-> Htail]; [|done].
      by injection Htail as _ ->.
    + apply sublist_app; [reflexivity|]. by apply sublist_cons.
    + intros Hall. apply Forall_app in Hall as [_ Hall].
      by apply Forall_cons_1 in Hall as [? _].
    + intros _. rewrite !length_app. cbn. lia.
    + intros repo Hin Hne. apply in_app_iff in Hin as [Hin|[->|Hin]];
        [apply in_app_iff; by left|done|apply in_app_iff; by right].
    + intros Hnodup. rewrite map_app in Hnodup. cbn in Hnodup.
      apply NoDup_app in Hnodup as (_ & _ & Hnodup).
      apply NoDup_cons in Hnodup as [Hnotin _].
      assert (Forall (fun repo => Repository.id repo <> rid) l2) as Hl2.
      { apply Forall_forall. intros repo Hin Heq. apply Hnotin.
        rewrite Hid, <- Heq. by apply list_elem_of_fmap_2. }
      split; [by apply Forall_app|].
      intros userId. unfold MockRepositoryService.fetchRepositories. cbn.
      pose proof (fetched_without_id rid userId) as Hkeep.
      rewrite Hl, !List.filter_app. cbn [List.filter].
      destruct (bool_decide (Repository.user_id found = userId)).
      * rewrite ?List.filter_app. cbn [List.filter].
        rewrite bool_decide_eq_true_2 by done. cbn [negb].
        by rewrite !Hkeep.
      * by rewrite ?List.filter_app, !Hkeep.
  - pose proof Hfind as Hnone%list_find_None.
    split; [reflexivity|]. split.
    { intros before found rest Hsplit _ Hfound. exfalso.
      rewrite Forall_forall in Hnone. apply (Hnone found); [|exact Hfound].
      rewrite Hsplit. apply elem_of_app. right. by left. }
    split; [reflexivity|]. split; [done|].
    split; [|split; [done|]].
    + intros Hex. exfalso. apply Exists_exists in Hex as (repo & Hin & Hid).
      rewrite Forall_forall in Hnone. by apply (Hnone repo).
    + intros _. split; [exact Hnone|]. intros userId.
      unfold MockRepositoryService.fetchRepositories.
      symmetry. by apply fetched_without_id.
Qed.

Lemma mock_delete_removes_one_by_id_witness :
  let st := {| MockRepositoryService.mockRepositories :=
                 [Sample.hello_world; Sample.spoon_knife; Sample.hello_world];
               MockRepositoryService.nextId := 4 |} in
  MockRepositoryService.mockRepositories
    (MockRepositoryService.deleteRepository st "r-1")
  = [Sample.spoon_knife; Sample.hello_world]
  /\ MockRepositoryService.deleteRepository st "r-9" = st.
Proof.
  intros st.
  pose proof (mock_delete_removes_one_by_id st "r-1") as H1.
  pose proof (mock_delete_removes_one_by_id st "r-9") as H2.
  cbv zeta in H1, H2.
  destruct H1 as (_ & Hfirst & _). destruct H2 as (_ & _ & _ & Hsame & _).
  split.
  - apply (Hfirst [] Sample.hello_world [Sample.spoon_knife; Sample.hello_world]);
      [reflexivity|constructor|reflexivity].
  - apply Hsame. repeat constructor; discriminate.
Defined.

(* ===================================================================== *)
(** ** Where the access token goes                                        *)
(* ===================================================================== *)

(** X25. The issue request carries an [Authorization] header exactly when a
    non-empty token is configured, with the value [token <token>]; and of
    all the requests that [fetchIssues] and [retryAutomation] make, against
    any network, only the one to the remote issue source carries it: the
    token is never sent to the companion backend. *)
Theorem token_is_sent_to_the_issue_source_only
    env owner repo filters (n : Z) (net : Network) :
  (forall value,
     In ("Authorization", value)
        (headers (IssuesSlice.issues_request env owner repo filters))
     <-> exists tok, VITE_GITHUB_TOKEN env = Some tok /\ tok <> ""
                     /\ value = "token " +:+ tok)
  /\ (forall req value,
        In req (requests (run net (IssuesSlice.fetchIssues env owner repo filters)).2
                ++ requests (run net (IssuesSlice.retryAutomation owner repo n)).2) ->
        In ("Authorization", value) (headers req) ->
        req = IssuesSlice.issues_request env owner repo filters).
Proof.
  split.
  - intros value. unfold IssuesSlice.issues_request. cbn [headers].
    destruct (VITE_GITHUB_TOKEN env) as [tok|].
    + destruct (truthy tok) eqn:Htok; cbn.
      * apply truthy_string_nonempty in Htok. split.
        -- intros [[=]|[[= <-]|[]]]. eauto.
        -- intros (tok' & [= <-] & _ & ->). auto.
      * split; [intros [[=]|[]]|].
        intros (tok' & [= <-] & Hne & _).
        apply truthy_string_nonempty in Hne. congruence.
    + cbn. split; [intros [[=]|[]]|]. intros (tok' & [=] & _).
  - intros req value Hin Hheader. apply in_app_iff in Hin as [Hin|Hin].
    + unfold IssuesSlice.fetchIssues in Hin. rewrite run_createAsyncThunk in Hin.
      destruct (run_fetchIssues_payload_cases env owner repo filters net)
        as [[_ [e He]]|(r & items & log & l & _ & _ & _ & Hrun & _ & Hr & _)].
      * rewrite He in Hin. cbn in Hin. by destruct Hin as [<-|[]].
      * rewrite Hrun in Hin. cbn [fst snd] in Hin.
        rewrite !app_comm_cons, !requests_app, Hr in Hin. cbn in Hin.
        destruct Hin as [<-|[<-|[]]]; [reflexivity|]. destruct Hheader.
    + unfold IssuesSlice.retryAutomation in Hin.
      rewrite run_createAsyncThunk, run_retryAutomation_payload in Hin.
      cbn [fst snd] in Hin.
      assert (req = IssuesSlice.retry_request owner repo n) as ->.
      { destruct (net _) as [response|]; [destruct (ok response)|];
          cbn in Hin; by destruct Hin as [<-|[]]. }
      cbn in Hheader. by destruct Hheader as [[=]|[]].
Qed.

Lemma token_is_sent_to_the_issue_source_only_witness :
  In ("Authorization", "token ghp_example")
     (headers (IssuesSlice.issues_request
                 {| VITE_GITHUB_TOKEN := Some "ghp_example"; VITE_API_BASE_URL := None |}
                 "octocat" "hello-world" None)).
Proof.
  destruct (token_is_sent_to_the_issue_source_only
              {| VITE_GITHUB_TOKEN := Some "ghp_example"; VITE_API_BASE_URL := None |}
              "octocat" "hello-world" None 1 (Sample.answers 200 "OK")) as [H _].
  apply H. exists "ghp_example". repeat split. discriminate.
Defined.
